(** * Health Insights: the health scorer and the lab-marker extractor

    The scorer is [getHealthScore] of
    [frontend/components/HealthSummary.tsx], together with the rating
    ternary of the same component.  It is embedded as the code is written:
    an accumulator [{score, factors}] threaded through the three wearable
    checks and through [recentReports.forEach].

    The extractor runs in the backend, of which the repository sources here
    hold only the caller [ManualEntry.tsx] and the shape of the reply; it is
    modelled from section 4.1 of the specification. *)

From Stdlib Require Import QArith Ascii.
From stdpp Require Import gmap strings list fin_maps pretty.

Local Open Scope Z_scope.

(** [x < y] on rationals, as a boolean. *)
Definition Qltb (x y : Q) : bool := negb (Qle_bool y x).

(** ** The JavaScript values the scorer reads *)

Module Js.

(** A numeric field of a JSON reply as the component sees it: the property
    may be missing ([undefined]), [null], or a number.  A JSON number is
    finite, and finite doubles compare as the rationals they denote. *)
Inductive value : Type :=
  | undefined
  | null
  | num (q : Q).

(** ToBoolean: [undefined], [null] and [0] are falsy. *)
Definition truthy (v : value) : bool :=
  match v with
  | undefined => false
  | null => false
  | num q => negb (Qeq_bool q 0)
  end.

(** ToNumber: [undefined] is NaN (no rational), [null] is [0]. *)
Definition to_number (v : value) : option Q :=
  match v with
  | undefined => None
  | null => Some 0%Q
  | num q => Some q
  end.

(** [v > c] and [v < c] against a numeric literal; a comparison with NaN is
    false. *)
Definition gt (v : value) (c : Q) : bool :=
  match to_number v with
  | Some q => Qltb c q
  | None => false
  end.

Definition lt (v : value) (c : Q) : bool :=
  match to_number v with
  | Some q => Qltb q c
  | None => false
  end.

End Js.

(** ** Data model *)

(** [interface HealthMarker] of [ManualEntry.tsx]; [status] is one of the
    strings ['low'], ['normal'], ['high']. *)
Inductive Status : Type := Low | Normal | High.

Record HealthMarker : Type := mkHealthMarker {
  name : string;
  value : Q;
  unit : string;
  normalRange : string;
  status : Status;
  recommendation : string
}.

(** One metric group of the wearable summary
    ([interface WearableSummary] of [WearableData.tsx]). *)
Record Metric : Type := mkMetric {
  latest : Js.value;
  average : Js.value
}.

(** The [summary] state of [HealthSummary]: each group may be missing
    ([None] stands for an [undefined] or [null] property; the initial state
    is [{}]). *)
Record Summary : Type := mkSummary {
  steps : option Metric;
  heart_rate : option Metric;
  sleep : option Metric
}.

(** A report as [getHealthScore] reads it: only [flagged_markers], the
    object that holds the report's flagged (non-normal) markers under their
    keys, or nothing ([None]: [undefined] or [null]).  The scorer reads the
    keys only; an array of markers is the same with the keys "0", "1", ... *)
Record Report : Type := mkReport {
  flagged_markers : option (gmap string HealthMarker)
}.

(** [Object.keys(o)] *)
Definition Object_keys (o : gmap string HealthMarker) : list string :=
  (map_to_list o).*1.

(** The value [getHealthScore] returns, and the accumulator it updates. *)
Record HealthScore : Type := mkHealthScore {
  score : Z;
  factors : list string
}.

(** ** getHealthScore *)

(** [score -= pts; factors.push(factor)] *)
Definition deduct (pts : Z) (factor : string) (hs : HealthScore) : HealthScore :=
  {| score := score hs - pts; factors := factors hs ++ [factor] |}.

(** [m && m.latest && m.latest > 0] *)
Definition has_latest (m : option Metric) : bool :=
  match m with
  | Some x => Js.truthy (latest x) && Js.gt (latest x) 0
  | None => false
  end.

(** [m.latest], read only behind [has_latest]. *)
Definition latest_of (m : option Metric) : Js.value :=
  match m with
  | Some x => latest x
  | None => Js.undefined
  end.

Definition check_steps (summary : Summary) (hs : HealthScore) : HealthScore :=
  if has_latest (steps summary) then
    if Js.lt (latest_of (steps summary)) 8000
    then deduct 10 "Low step count" hs
    else hs
  else hs.

Definition check_heart_rate (summary : Summary) (hs : HealthScore) : HealthScore :=
  if has_latest (heart_rate summary) then
    if Js.lt (latest_of (heart_rate summary)) 60
       || Js.gt (latest_of (heart_rate summary)) 100
    then deduct 15 "Heart rate outside normal range" hs
    else hs
  else hs.

Definition check_sleep (summary : Summary) (hs : HealthScore) : HealthScore :=
  if has_latest (sleep summary) then
    if Js.lt (latest_of (sleep summary)) 7
    then deduct 15 "Insufficient sleep" hs
    else hs
  else hs.

(** [Object.keys(report.flagged_markers).length], behind the truthiness test
    of [report.flagged_markers]. *)
Definition flagged_count (report : Report) : nat :=
  match flagged_markers report with
  | Some o => length (Object_keys o)
  | None => 0%nat
  end.

(** [report.flagged_markers && Object.keys(report.flagged_markers).length > 0] *)
Definition is_flagged (report : Report) : bool :=
  match flagged_markers report with
  | Some o => bool_decide (0 < length (Object_keys o))%nat
  | None => false
  end.

(** The template literal [`${n} abnormal lab markers`]. *)
Definition abnormal_factor (n : nat) : string :=
  pretty n +:+ " abnormal lab markers".

(** The body of the [forEach] callback. *)
Definition check_report (hs : HealthScore) (report : Report) : HealthScore :=
  if is_flagged report
  then deduct 20 (abnormal_factor (flagged_count report)) hs
  else hs.

Definition getHealthScore (summary : Summary) (recentReports : list Report)
  : HealthScore :=
  let hs := {| score := 100; factors := [] |} in
  let hs := check_steps summary hs in
  let hs := check_heart_rate summary hs in
  let hs := check_sleep summary hs in
  let hs := foldl check_report hs recentReports in
  {| score := Z.max 0 (score hs); factors := factors hs |}.

(** The rating ternary of the render. *)
Definition rating (score : Z) : string :=
  if bool_decide (80 ≤ score) then "Excellent"
  else if bool_decide (60 ≤ score) then "Good"
  else if bool_decide (40 ≤ score) then "Fair"
  else "Needs Attention".

(** ** Vocabulary for the statements about the scorer *)

Inductive MetricKind : Type := Steps | HeartRate | Sleep.

Definition metric (k : MetricKind) (summary : Summary) : option Metric :=
  match k with
  | Steps => steps summary
  | HeartRate => heart_rate summary
  | Sleep => sleep summary
  end.

Definition set_metric (k : MetricKind) (m : option Metric) (summary : Summary)
  : Summary :=
  match k with
  | Steps => mkSummary m (heart_rate summary) (sleep summary)
  | HeartRate => mkSummary (steps summary) m (sleep summary)
  | Sleep => mkSummary (steps summary) (heart_rate summary) m
  end.

Definition check (k : MetricKind) : Summary → HealthScore → HealthScore :=
  match k with
  | Steps => check_steps
  | HeartRate => check_heart_rate
  | Sleep => check_sleep
  end.

Definition metric_factor (k : MetricKind) : string :=
  match k with
  | Steps => "Low step count"
  | HeartRate => "Heart rate outside normal range"
  | Sleep => "Insufficient sleep"
  end.

Definition metric_points (k : MetricKind) : Z :=
  match k with
  | Steps => 10
  | HeartRate => 15
  | Sleep => 15
  end.

(** The reading is out of the metric's healthy range. *)
Definition out_of_range (k : MetricKind) (v : Js.value) : bool :=
  match k with
  | Steps => Js.lt v 8000
  | HeartRate => Js.lt v 60 || Js.gt v 100
  | Sleep => Js.lt v 7
  end.

(** The metric is present and its reading triggers the deduction. *)
Definition triggers (k : MetricKind) (summary : Summary) : bool :=
  has_latest (metric k summary) && out_of_range k (latest_of (metric k summary)).

(** A metric whose [latest] is zero, null or missing, or that is missing as
    a whole. *)
Definition is_absent (m : option Metric) : bool :=
  match m with
  | None => true
  | Some x =>
      match latest x with
      | Js.undefined => true
      | Js.null => true
      | Js.num q => Qeq_bool q 0
      end
  end.

(** The markers of a report that are not normal: the entries of its
    [flagged_markers]. *)
Definition abnormal_markers (report : Report) : list HealthMarker :=
  match flagged_markers report with
  | Some o => (map_to_list o).*2
  | None => []
  end.

(** The factor a metric contributes, as a list of zero or one string. *)
Definition factor_of_metric (k : MetricKind) (summary : Summary) : list string :=
  if triggers k summary then [metric_factor k] else [].

(** The factor a report contributes, as a list of zero or one string. *)
Definition factor_of_report (report : Report) : list string :=
  match abnormal_markers report with
  | [] => []
  | ms => [pretty (length ms) +:+ " abnormal lab markers"]
  end.

(** The summary and the report of the scoring scenario. *)
Definition scenario_summary : Summary :=
  {| steps := Some {| latest := Js.num 5000; average := Js.undefined |};
     heart_rate := Some {| latest := Js.num 72; average := Js.undefined |};
     sleep := Some {| latest := Js.num 8; average := Js.undefined |} |}.

Definition report_of_marker (m : HealthMarker) : Report :=
  {| flagged_markers := Some {[ name m := m ]} |}.

(** [summary = {}] *)
Definition empty_summary : Summary :=
  {| steps := None; heart_rate := None; sleep := None |}.

(** The points the three wearable checks take off together. *)
Definition wearable_points (summary : Summary) : Z :=
  (if triggers Steps summary then 10 else 0)
  + (if triggers HeartRate summary then 15 else 0)
  + (if triggers Sleep summary then 15 else 0).

(** The last character of a string (used to tell factor strings apart). *)
Fixpoint last_char (s : string) : option ascii :=
  match s with
  | EmptyString => None
  | String c EmptyString => Some c
  | String _ s' => last_char s'
  end.

(** ** The marker extractor *)

(** The extractor answers [/reports/debug-text] in the backend; only its
    caller [ManualEntry.tsx] is among the sources.  Its data follows that
    caller, its algorithm section 4.1 of the specification. *)

(** Modelled from the spec: the backend's table entry of a known marker
    ([unit] of the specification is [canonical_unit] here). *)
Record MarkerDefinition : Type := mkMarkerDefinition {
  canonical_name : string;
  aliases : list string;
  canonical_unit : string;
  unit_aliases : list string;
  low : Q;
  high : Q;
  recommendation_low : string;
  recommendation_high : string
}.

(** The [results] state of [ManualEntry]. *)
Record ExtractionResult : Type := mkExtractionResult {
  extractedText : string;
  markers : list HealthMarker;
  textLength : nat;
  markersFound : nat
}.

(** Modelled from the spec: the backend's only extraction error. *)
Inductive ExtractError : Type := InvalidInputError.

(** Modelled from the spec: the backend's record of a match of an alias
    in the text, with the span [m_start, m_end) of characters it consumes. *)
Record Match : Type := mkMatch {
  m_start : nat;
  m_end : nat;
  m_def : MarkerDefinition;
  m_value : Q;
  m_unit : string
}.

Section extractor.
Local Open Scope nat_scope.

(** The marker table of the backend and its rendering of a range as a
    string; the specification fixes the content of neither. *)
Variable table : list MarkerDefinition.
Variable render_range : Q → Q → string.

(** Modelled from the spec: the backend's whitespace class (space, tab,
    line feed, carriage return). *)
Definition is_space (c : ascii) : bool :=
  let n := nat_of_ascii c in
  (n =? 32) || (n =? 9) || (n =? 10) || (n =? 13).

(** Modelled from the spec: the backend's digit class. *)
Definition is_digit (c : ascii) : bool :=
  let n := nat_of_ascii c in (48 <=? n) && (n <=? 57).

(** Modelled from the spec: the backend's upper-casing (step 1). *)
Definition upper (c : ascii) : ascii :=
  let n := nat_of_ascii c in
  if (97 <=? n) && (n <=? 122) then ascii_of_nat (n - 32) else c.

(** A text without digits (it holds no numeric literal). *)
Definition no_digit (l : list ascii) : Prop :=
  Forall (λ c, is_digit c = false) l.

(** Modelled from the spec: the backend's normalisation of the input
    (step 1), every run of whitespace becomes one space. *)
Fixpoint collapse_ws (l : list ascii) : list ascii :=
  match l with
  | [] => []
  | c :: l' =>
      if is_space c then
        match l' with
        | c' :: _ => if is_space c' then collapse_ws l'
                     else " "%char :: collapse_ws l'
        | [] => [" "%char]
        end
      else c :: collapse_ws l'
  end.

(** Modelled from the spec: the backend's reading of a token, the longest
    prefix of [l] whose characters satisfy [p], and the rest. *)
Fixpoint span (p : ascii → bool) (l : list ascii) : list ascii * list ascii :=
  match l with
  | c :: l' => if p c then let '(a, b) := span p l' in (c :: a, b)
               else ([], l)
  | [] => ([], [])
  end.

(** Modelled from the spec: the backend's reading of decimal digits. *)
Definition digit_value (c : ascii) : N := N.of_nat (nat_of_ascii c - 48).

(** Modelled from the spec: the backend's reading of a digit string. *)
Definition digits_value (ds : list ascii) : N :=
  foldl (λ acc d, acc * 10 + digit_value d)%N 0%N ds.

(** Modelled from the spec: the backend's numeric-literal pattern, an
    unsigned integer or decimal at the head of [l]; the value and the
    number of characters read. *)
Definition parse_number (l : list ascii) : option (Q * nat) :=
  let '(ip, rest) := span is_digit l in
  match ip with
  | [] => None
  | _ =>
      let whole := (Z.of_N (digits_value ip) # 1)%Q in
      match rest with
      | "."%char :: rest' =>
          let '(fp, _) := span is_digit rest' in
          match fp with
          | [] => Some (whole, length ip)
          | _ =>
              let scale := (10 ^ N.of_nat (length fp))%N in
              Some ((Z.of_N (digits_value ip * scale + digits_value fp)
                     # N.succ_pos (N.pred scale))%Q,
                    length ip + 1 + length fp)
          end
      | _ => Some (whole, length ip)
      end
  end.

(** Modelled from the spec: the backend's lookahead (step 2), the first
    numeric literal that starts within the next [window] characters.  What
    stands before it (a separator, a leading [<] or [>]) is skipped; a
    literal right after a minus sign is a negative value and makes the
    occurrence a non-match.  Returns the value with the offsets where the
    literal starts and ends. *)
Fixpoint find_number (window : nat) (prev : ascii) (l : list ascii)
    (offset : nat) : option (Q * nat * nat) :=
  match window, l with
  | S w, c :: l' =>
      if is_digit c then
        if Ascii.eqb prev "-" then None
        else
          match parse_number l with
          | Some (v, n) => Some (v, offset, offset + n)
          | None => None
          end
      else find_number w c l' (S offset)
  | _, _ => None
  end.

(** Modelled from the spec: the backend's unit recognition (step 2), the
    optional unit token next to the number, taken when it is one of the
    definition's [unit_aliases]; otherwise the canonical unit.  Returns the
    unit and the end of the span. *)
Definition unit_at (d : MarkerDefinition) (l : list ascii) (pos : nat)
  : string * nat :=
  let '(sp, l') := match l with
                   | c :: l' => if is_space c then (1, l') else (0, l)
                   | [] => (0, l)
                   end in
  let token := String.string_of_list_ascii (span (λ c, negb (is_space c)) l').1 in
  if bool_decide (token ∈ unit_aliases d)
  then (token, pos + sp + String.length token)
  else (canonical_unit d, pos).

(** Modelled from the spec: the backend's match of one alias at one
    position [i] of the text (step 2): the alias, compared in upper case,
    then a number within the next 80 characters (the normalised text is one
    line), then the unit. *)
Definition match_at (norm working : list ascii)
    (ad : string * MarkerDefinition) (i : nat) : option Match :=
  let a := upper <$> String.list_ascii_of_string ad.1 in
  if bool_decide (a `prefix_of` drop i working) then
    let after := i + length a in
    match find_number 80 " " (drop after norm) after with
    | Some (v, _, num_end) =>
        let '(u, e) := unit_at ad.2 (drop num_end norm) num_end in
        Some {| m_start := i; m_end := e; m_def := ad.2;
                m_value := v; m_unit := u |}
    | None => None
    end
  else None.

(** Modelled from the spec: the backend's span bookkeeping (step 3);
    [s, e) meets the span of [m]. *)
Definition overlaps (s e : nat) (m : Match) : bool :=
  (s <? m_end m) && (m_start m <? e).

(** Modelled from the spec: the backend's span exclusivity (step 3), a
    span is consumed by at most one match. *)
Definition span_free (ms : list Match) (m : Match) : bool :=
  forallb (λ m', negb (overlaps (m_start m) (m_end m) m')) ms.

(** Modelled from the spec: the backend's scan of the text for one alias,
    left to right, keeping the matches whose span is still free. *)
Definition scan_alias (norm working : list ascii) (ms : list Match)
    (ad : string * MarkerDefinition) : list Match :=
  foldl (λ ms i,
           match match_at norm working ad i with
           | Some m => if span_free ms m then ms ++ [m] else ms
           | None => ms
           end)
        ms (seq 0 (length norm)).

(** Modelled from the spec: the backend's stable ordering (steps 3 and
    6), an insertion sort along a boolean order. *)
Fixpoint insert_by {A : Type} (le : A → A → bool) (x : A) (l : list A)
  : list A :=
  match l with
  | [] => [x]
  | y :: l' => if le x y then x :: l else y :: insert_by le x l'
  end.

(** Modelled from the spec: the backend's stable ordering, the sort. *)
Definition sort_by {A : Type} (le : A → A → bool) (l : list A) : list A :=
  foldr (insert_by le) [] l.

(** Modelled from the spec: the backend's alias list (step 3), the
    aliases of the table with their definitions. *)
Definition alias_pairs : list (string * MarkerDefinition) :=
  d ← table; (λ a, (a, d)) <$> aliases d.

(** Modelled from the spec: the backend's alias order (step 3), longest
    alias first. *)
Definition longest_first (ads : list (string * MarkerDefinition))
  : list (string * MarkerDefinition) :=
  sort_by (λ x y, String.length y.1 <=? String.length x.1) ads.

(** Modelled from the spec: the backend's matching pass (steps 1 to 3)
    over the whole table. *)
Definition find_matches (text : string) : list Match :=
  let norm := collapse_ws (String.list_ascii_of_string text) in
  let working := upper <$> norm in
  foldl (scan_alias norm working) [] (longest_first alias_pairs).

(** Modelled from the spec: the backend's classification (step 4), the
    status of a value against the bounds of the definition. *)
Definition classify (d : MarkerDefinition) (v : Q) : Status :=
  if Qltb v (low d) then Low
  else if Qltb (high d) v then High
  else Normal.

(** Modelled from the spec: the backend's choice of recommendation
    (step 4); none for a normal value. *)
Definition recommendation_for (d : MarkerDefinition) (st : Status) : string :=
  match st with
  | Low => recommendation_low d
  | High => recommendation_high d
  | Normal => ""
  end.

(** Modelled from the spec: the backend's marker record for a match. *)
Definition marker_of_match (m : Match) : HealthMarker :=
  {| name := canonical_name (m_def m);
     value := m_value m;
     unit := m_unit m;
     normalRange := render_range (low (m_def m)) (high (m_def m));
     status := classify (m_def m) (m_value m);
     recommendation :=
       recommendation_for (m_def m) (classify (m_def m) (m_value m)) |}.

(** Modelled from the spec: the backend's [extract] (steps 1 to 6); the
    markers come in the order of the start of their spans. *)
Definition extract (text : string) : ExtractionResult :=
  let ms := sort_by (λ x y, m_start x <=? m_start y) (find_matches text) in
  let markers := marker_of_match <$> ms in
  {| extractedText := text;
     markers := markers;
     textLength := String.length text;
     markersFound := length markers |}.

(** Modelled from the spec: the backend's contract for [extract]; only a
    missing text is an error. *)
Definition extract_checked (raw_text : option string)
  : ExtractError + ExtractionResult :=
  match raw_text with
  | Some text => inr (extract text)
  | None => inl InvalidInputError
  end.

(** Modelled from the spec: the backend's scan of [scan_alias] over any
    list of positions ([scan_alias] is this scan over all positions of the
    text). *)
Definition scan_positions (norm working : list ascii)
    (ad : string * MarkerDefinition) (ms : list Match) (idxs : list nat)
  : list Match :=
  foldl (λ ms i,
           match match_at norm working ad i with
           | Some m => if span_free ms m then ms ++ [m] else ms
           | None => ms
           end)
        ms idxs.

(** Modelled from the spec: the backend's name matching (step 2), an alias
    of the table occurs at position [i] of the working copy. *)
Definition alias_at (working : list ascii) (ad : string * MarkerDefinition)
    (i : nat) : bool :=
  bool_decide ((upper <$> String.list_ascii_of_string ad.1)
               `prefix_of` drop i working).

(** Modelled from the spec: a text that names a marker, some alias of the
    table occurs somewhere in its normalised upper-case copy. *)
Definition names_marker (text : string) : bool :=
  let norm := collapse_ws (String.list_ascii_of_string text) in
  let working := upper <$> norm in
  existsb (λ ad, existsb (alias_at working ad) (seq 0 (length norm)))
          alias_pairs.

(** Modelled from the spec: a text with a recognizable marker, at some
    position some alias of the table is followed within the window by a
    numeric literal (step 2 succeeds). *)
Definition recognizable (text : string) : bool :=
  let norm := collapse_ws (String.list_ascii_of_string text) in
  let working := upper <$> norm in
  existsb (λ ad,
             existsb (λ i, bool_decide (is_Some (match_at norm working ad i)))
                     (seq 0 (length norm)))
          alias_pairs.

End extractor.

(** A table with the two markers of the manual-entry help text. *)
Definition sample_table : list MarkerDefinition :=
  [ {| canonical_name := "FERRITIN";
       aliases := ["FERRITIN"; "SERUM FERRITIN"];
       canonical_unit := "ng/mL";
       unit_aliases := ["ng/mL"; "ng/ml"; "NG/ML"];
       low := 38; high := 380;
       recommendation_low := "Ferritin is low.";
       recommendation_high := "Ferritin is high." |};
    {| canonical_name := "GLUCOSE";
       aliases := ["GLUCOSE"];
       canonical_unit := "mg/dL";
       unit_aliases := ["mg/dL"; "mg/dl"; "MG/DL"];
       low := 70; high := 100;
       recommendation_low := "Glucose is low.";
       recommendation_high := "Glucose is high." |} ].

(** A rendering of a range for the samples: the integer parts of the
    bounds. *)
Definition sample_range (lo hi : Q) : string :=
  pretty (Qnum lo / Zpos (Qden lo)) +:+ "-" +:+ pretty (Qnum hi / Zpos (Qden hi)).

(** A text with a number and without the name of a marker. *)
Definition age_text : string := "The patient is 45 years old.".

(** The input of the manual-entry scenario, and the marker it yields. *)
Definition scenario_text : string :=
  "FERRITIN: 22 ng/mL (Low)" +:+ String (ascii_of_nat 10) ""
  +:+ "Normal Range: 38-380 ng/mL".

Definition scenario_marker : HealthMarker :=
  {| name := "FERRITIN"; value := 22; unit := "ng/mL";
     normalRange := "38-380"; status := Low;
     recommendation := "Ferritin is low." |}.

(** A marker of status high, for the scoring scenario. *)
Definition high_marker : HealthMarker :=
  {| name := "GLUCOSE"; value := 140; unit := "mg/dL";
     normalRange := "70-100"; status := High;
     recommendation := "Glucose is high." |}.

(** A heart-rate reading above the normal range. *)
Definition racing_heart : Metric :=
  {| latest := Js.num 120; average := Js.num 80 |}.

(** Texts that exercise the alias precedence, repeated mentions and a
    negative number. *)
Definition serum_text : string := "Serum Ferritin   <  22.5 ng/ml (Low)".
Definition repeated_text : string := "GLUCOSE 95 ferritin: -5 then glucose 101.25".

(** A summary whose heart rate and sleep readings are zero. *)
Definition zero_summary : Summary :=
  {| steps := Some {| latest := Js.num 9000; average := Js.num 9000 |};
     heart_rate := Some {| latest := Js.num 0; average := Js.num 0 |};
     sleep := Some {| latest := Js.num 0; average := Js.null |} |}.

(** ** The rest of [HealthSummary.tsx]: state, fetch and render *)

Module HS.

(** The state of the component: [summary], [recentReports], [isLoading]. *)
Record State : Type := mkState {
  summary : Summary;
  recentReports : list Report;
  isLoading : bool
}.

(** [useState({})], [useState([])], [useState(true)] *)
Definition initial : State :=
  {| summary := empty_summary; recentReports := []; isLoading := true |}.

(** What the two requests of [fetchSummary] come back with: both replies,
    or an exception in one of them. *)
Inductive Fetched : Type :=
  | fetched (wearable : Summary) (reports : list Report)
  | fetch_failed.

(** [fetchSummary]: both setters run after both requests; the [finally]
    clears [isLoading] either way.  The reports are cut by [slice(0, 3)]. *)
Definition fetchSummary (reply : Fetched) (st : State) : State :=
  match reply with
  | fetched wearable reports =>
      {| summary := wearable; recentReports := take 3 reports;
         isLoading := false |}
  | fetch_failed =>
      {| summary := summary st; recentReports := recentReports st;
         isLoading := false |}
  end.

(** The value of a guard expression of the render: the operand at which
    [&&] or [||] stops ([None] metric groups count as [undefined]). *)
Inductive Guard : Type :=
  | g_undefined
  | g_null
  | g_num (q : Q)
  | g_bool (b : bool).

Definition of_value (v : Js.value) : Guard :=
  match v with
  | Js.undefined => g_undefined
  | Js.null => g_null
  | Js.num q => g_num q
  end.

(** ToBoolean on guard values. *)
Definition truthy (g : Guard) : bool :=
  match g with
  | g_undefined => false
  | g_null => false
  | g_num q => negb (Qeq_bool q 0)
  | g_bool b => b
  end.

(** [m && m.latest && m.latest > 0], as the value it yields. *)
Definition latest_guard (m : option Metric) : Guard :=
  match m with
  | None => g_undefined
  | Some x =>
      if Js.truthy (latest x) then g_bool (Js.gt (latest x) 0)
      else of_value (latest x)
  end.

(** [a || b] *)
Definition or (a b : Guard) : Guard := if truthy a then a else b.

(** [hasWearableData]: the three guards joined by [||]. *)
Definition hasWearableData (s : Summary) : Guard :=
  or (or (latest_guard (steps s)) (latest_guard (heart_rate s)))
     (latest_guard (sleep s)).

(** [hasReports]: [recentReports.length > 0] *)
Definition hasReports (rs : list Report) : bool :=
  bool_decide (0 < length rs)%nat.

(** What React puts in the place of [{e}]: nothing for [false], [null] and
    [undefined], the digits of a number, the element otherwise. *)
Inductive Slot (A : Type) : Type :=
  | nothing
  | text (s : string)
  | element (a : A).
Arguments nothing {A}.
Arguments text {A} s.
Arguments element {A} a.

(** [{g && e}]: a falsy [g] is what gets rendered, and the only falsy
    number here is zero. *)
Definition and_then {A : Type} (g : Guard) (e : A) : Slot A :=
  match g with
  | g_undefined => nothing
  | g_null => nothing
  | g_bool b => if b then element e else nothing
  | g_num q => if Qeq_bool q 0 then text "0" else element e
  end.

(** [{b && e}] for a boolean [b]. *)
Definition when {A : Type} (b : bool) (e : A) : Slot A :=
  if b then element e else nothing.

Definition is_element {A : Type} (s : Slot A) : bool :=
  match s with
  | element _ => true
  | _ => false
  end.

(** [v >= c] and [v <= c] against a numeric literal. *)
Definition ge (v : Js.value) (c : Q) : bool :=
  match Js.to_number v with
  | Some q => Qle_bool c q
  | None => false
  end.

Definition le (v : Js.value) (c : Q) : bool :=
  match Js.to_number v with
  | Some q => Qle_bool q c
  | None => false
  end.

(** The badge of the heart-rate card. *)
Definition heart_rate_badge (v : Js.value) : string :=
  if ge v 60 && le v 100 then "Normal" else "Check".

(** The badge of the sleep card. *)
Definition sleep_badge (v : Js.value) : string :=
  if ge v 7 then "Good" else "Short".

(** The blocks of the page, with what they display.  The progress bar of
    the steps card is floating-point arithmetic on the reading and is left
    out of the card. *)
Record ScoreBlock : Type := mkScoreBlock {
  sb_score : Z;
  sb_rating : string;
  sb_areas : Slot (list string)
}.

Record StepsCard : Type := mkStepsCard { steps_reading : Js.value }.

Record HeartRateCard : Type := mkHeartRateCard {
  hr_reading : Js.value;
  hr_badge : string
}.

Record SleepCard : Type := mkSleepCard {
  sleep_reading : Js.value;
  sleep_label : string
}.

Record StatsGrid : Type := mkStatsGrid {
  g_steps : Slot StepsCard;
  g_heart_rate : Slot HeartRateCard;
  g_sleep : Slot SleepCard
}.

Record ReportsBlock : Type := mkReportsBlock {
  rb_total : nat;
  rb_abnormal : nat
}.

Record Page : Type := mkPage {
  p_score : Slot ScoreBlock;
  p_areas : Slot (list string);
  p_stats : Slot StatsGrid;
  p_reports : Slot ReportsBlock;
  p_empty : Slot ()
}.

(** The render once loaded (lines 110 to 276), block by block. *)
Definition page (s : Summary) (rs : list Report) : Page :=
  let healthScore := getHealthScore s rs in
  let has_factors := bool_decide (0 < length (factors healthScore))%nat in
  {| p_score :=
       and_then (hasWearableData s)
         {| sb_score := score healthScore;
            sb_rating := rating (score healthScore);
            sb_areas := when has_factors (factors healthScore) |};
     p_areas := when (hasReports rs && has_factors) (factors healthScore);
     p_stats :=
       and_then (hasWearableData s)
         {| g_steps :=
              and_then (latest_guard (steps s))
                {| steps_reading := latest_of (steps s) |};
            g_heart_rate :=
              and_then (latest_guard (heart_rate s))
                {| hr_reading := latest_of (heart_rate s);
                   hr_badge := heart_rate_badge (latest_of (heart_rate s)) |};
            g_sleep :=
              and_then (latest_guard (sleep s))
                {| sleep_reading := latest_of (sleep s);
                   sleep_label := sleep_badge (latest_of (sleep s)) |} |};
     p_reports :=
       when (hasReports rs)
         {| rb_total := length rs;
            rb_abnormal := length (List.filter is_flagged rs) |};
     p_empty := when (negb (truthy (hasWearableData s)) && negb (hasReports rs)) () |}.

(** The render: the skeleton of four placeholders while loading, the page
    after. *)
Inductive View : Type :=
  | skeleton (placeholders : nat)
  | loaded (p : Page).

Definition render (st : State) : View :=
  if isLoading st then skeleton 4
  else loaded (page (summary st) (recentReports st)).

(** How many times the list of factors is put on the page. *)
Definition factor_lists (p : Page) : list (list string) :=
  match p_score p with
  | element sb =>
      match sb_areas sb with
      | element fs => [fs]
      | _ => []
      end
  | _ => []
  end
  ++ match p_areas p with
     | element fs => [fs]
     | _ => []
     end.

(** A metric group whose [latest] is the number zero. *)
Definition zero_latest (m : option Metric) : bool :=
  match m with
  | Some x =>
      match latest x with
      | Js.num q => Qeq_bool q 0
      | _ => false
      end
  | None => false
  end.

(** What a slot looks like on the page: its element, a stray text, or
    nothing. *)
Inductive Shape : Type :=
  | shown
  | stray (s : string)
  | hidden.

Definition shape {A : Type} (s : Slot A) : Shape :=
  match s with
  | element _ => shown
  | text t => stray t
  | nothing => hidden
  end.

(** The shape the guard of a metric group gives to what it guards. *)
Definition guard_shape (m : option Metric) : Shape :=
  if has_latest m then shown
  else if zero_latest m then stray "0"
  else hidden.

(** The state after the replies of any number of fetches, from the initial
    state. *)
Definition run (replies : list Fetched) : State :=
  foldl (λ st reply, fetchSummary reply st) initial replies.

End HS.

(** ** [ManualEntry.tsx]: the state and the two handlers *)

Module ManualEntry.

(** The state of the component: [text], [isLoading], [results], [error]. *)
Record State : Type := mkState {
  text : string;
  isLoading : bool;
  results : option ExtractionResult;
  error : string
}.

(** [useState('')], [useState(false)], [useState(null)], [useState('')] *)
Definition initial : State :=
  {| text := ""; isLoading := false; results := None; error := "" |}.

(** The white space that [String.prototype.trim] removes, among the code
    units below 256: TAB, LF, VT, FF, CR, SP and NBSP. *)
Definition is_ws (c : ascii) : bool :=
  let n := nat_of_ascii c in
  ((9 <=? n) && (n <=? 13) || (n =? 32) || (n =? 160))%nat.

Fixpoint drop_ws (l : list ascii) : list ascii :=
  match l with
  | c :: l' => if is_ws c then drop_ws l' else l
  | [] => []
  end.

Definition trim_list (l : list ascii) : list ascii :=
  reverse (drop_ws (reverse (drop_ws l))).

(** [s.trim()] *)
Definition trim (s : string) : string :=
  String.string_of_list_ascii (trim_list (String.list_ascii_of_string s)).

(** [!s] on a string: only the empty string is falsy. *)
Definition is_empty (s : string) : bool := String.eqb s "".

(** What a request comes back with: the data of the response, or an
    exception with [err.response?.data?.detail] (a string, or nothing). *)
Inductive Reply (A : Type) : Type :=
  | ok (data : A)
  | failed (detail : option string).
Arguments ok {A} data.
Arguments failed {A} detail.

(** The requests the component sends: the JSON body of
    [/reports/debug-text], the form fields of [/reports/upload]. *)
Inductive Request : Type :=
  | post_debug_text (body_text : string)
  | post_upload (filename text_content : string).

(** [detail || fallback] *)
Definition or_default (detail : option string) (fallback : string) : string :=
  match detail with
  | Some d => if is_empty d then fallback else d
  | None => fallback
  end.

(** [onChange] of the textarea: [setText(e.target.value)] *)
Definition onChange (value : string) (st : State) : State :=
  {| text := value; isLoading := isLoading st; results := results st;
     error := error st |}.

(** [handleTestText] up to the request: the guard on the trimmed text, then
    the three setters and the request. *)
Definition handleTestText_start (st : State) : State * option Request :=
  if is_empty (trim (text st)) then
    ({| text := text st; isLoading := isLoading st; results := results st;
        error := "Please enter some text to test" |}, None)
  else
    ({| text := text st; isLoading := true; results := None; error := "" |},
     Some (post_debug_text (trim (text st)))).

(** [handleTestText] from the reply on: [try], [catch], [finally]. *)
Definition handleTestText_finish (reply : Reply ExtractionResult) (st : State)
  : State :=
  match reply with
  | ok data =>
      {| text := text st; isLoading := false; results := Some data;
         error := error st |}
  | failed detail =>
      {| text := text st; isLoading := false; results := results st;
         error := or_default detail "Failed to process text" |}
  end.

(** [handleTestText] against a backend that answers every text. *)
Definition handleTestText (backend : string → Reply ExtractionResult)
    (st : State) : State :=
  match handleTestText_start st with
  | (st', Some (post_debug_text t)) => handleTestText_finish (backend t) st'
  | (st', _) => st'
  end.

(** [results?.markers && results.markers.length > 0] *)
Definition has_markers (r : option ExtractionResult) : bool :=
  match r with
  | Some res => bool_decide (0 < length (markers res))%nat
  | None => false
  end.

(** [!results?.markers || results.markers.length === 0] *)
Definition no_markers (r : option ExtractionResult) : bool :=
  match r with
  | Some res => (length (markers res) =? 0)%nat
  | None => true
  end.

(** [handleSaveToReports] up to the request. *)
Definition handleSaveToReports_start (st : State) : State * option Request :=
  if no_markers (results st) then
    ({| text := text st; isLoading := isLoading st; results := results st;
        error := "No markers detected to save" |}, None)
  else
    ({| text := text st; isLoading := true; results := results st;
        error := "" |},
     Some (post_upload "Manual Entry" (text st))).

(** [handleSaveToReports] from the reply on. *)
Definition handleSaveToReports_finish (reply : Reply ()) (st : State) : State :=
  match reply with
  | ok _ =>
      {| text := ""; isLoading := false; results := None; error := error st |}
  | failed detail =>
      {| text := text st; isLoading := false; results := results st;
         error := or_default detail "Failed to save markers" |}
  end.

Definition handleSaveToReports (backend : string → string → Reply ())
    (st : State) : State :=
  match handleSaveToReports_start st with
  | (st', Some (post_upload f t)) => handleSaveToReports_finish (backend f t) st'
  | (st', _) => st'
  end.

(** The controls of the render: [disabled] of the Test button, whether the
    Save button and the error banner are there. *)
Definition test_disabled (st : State) : bool :=
  isLoading st || is_empty (trim (text st)).

Definition save_visible (st : State) : bool := has_markers (results st).

Definition error_shown (st : State) : bool := negb (is_empty (error st)).

(** What happens to the form: the user edits the text, or clicks Test or
    Save and the request, if one is sent, comes back with the reply. *)
Inductive Event : Type :=
  | edit (value : string)
  | click_test (reply : Reply ExtractionResult)
  | click_save (reply : Reply ()).

Definition step (st : State) (ev : Event) : State :=
  match ev with
  | edit value => onChange value st
  | click_test reply => handleTestText (λ _, reply) st
  | click_save reply => handleSaveToReports (λ _ _, reply) st
  end.

(** The form after a sequence of events, from the initial state. *)
Definition run (events : list Event) : State := foldl step initial events.

(** A text of white space only, and a text with no white space at either
    end. *)
Definition blank (s : string) : Prop :=
  Forall (λ c, is_ws c = true) (String.list_ascii_of_string s).

Definition trimmed_list (l : list ascii) : Prop :=
  (∀ c, head l = Some c → is_ws c = false)
  ∧ (∀ c, last l = Some c → is_ws c = false).

Definition trimmed (s : string) : Prop :=
  trimmed_list (String.list_ascii_of_string s).

End ManualEntry.

(** ** [app/dashboard/page.tsx]: the chat sessions of the sidebar *)

Module Dashboard.

(** [role: 'user' | 'assistant'] *)
Inductive Role : Type := user | assistant.

(** [interface Message] ([msg_id] is its [id]). *)
Record Message : Type := mkMessage {
  msg_id : string;
  content : string;
  role : Role;
  timestamp : string
}.

(** [interface ChatSession] *)
Record ChatSession : Type := mkChatSession {
  id : string;
  title : string;
  created_at : string;
  messages : list Message
}.

(** The part of the state the session functions touch. *)
Record State : Type := mkState {
  sessions : list ChatSession;
  currentSession : option ChatSession
}.

(** [formatSessionTitle] *)
Definition formatSessionTitle (title : string) : string :=
  if (30 <? String.length title)%nat
  then String.substring 0 30 title +:+ "..."
  else title.

(** [createNewSession]: with the session of the response both setters run;
    on an exception nothing changes. *)
Definition createNewSession (response : option ChatSession) (st : State)
  : State :=
  match response with
  | Some newSession =>
      {| sessions := sessions st ++ [newSession];
         currentSession := Some newSession |}
  | None => st
  end.

(** [loadSessionMessages]: the session of the response becomes the
    current one; on an exception nothing changes. *)
Definition loadSessionMessages (response : option ChatSession) (st : State)
  : State :=
  match response with
  | Some sessionData =>
      {| sessions := sessions st; currentSession := Some sessionData |}
  | None => st
  end.

(** [currentSession?.id === sessionId], on the [currentSession] that the
    handler closed over when Delete was clicked. *)
Definition captured_is (sessionId : string) (captured : option ChatSession)
  : bool :=
  match captured with
  | Some c => bool_decide (id c = sessionId)
  | None => false
  end.

(** [deleteSession] after [await axios.delete(...)]: [setSessions] filters
    the list of the state [st] in which the reply arrives, while the test
    reads [captured], the current session of the render in which Delete
    was clicked. *)
Definition deleteSession_finish (sessionId : string)
    (captured : option ChatSession) (st : State) : State :=
  {| sessions := filter (λ session, id session ≠ sessionId) (sessions st);
     currentSession :=
       if captured_is sessionId captured then None else currentSession st |}.

(** [deleteSession] with nothing else happening during the request (the
    captured current session is that of [st]): nothing without the
    confirmation or when the request fails; otherwise the sessions with
    that id go, and the current session too when it is one of them. *)
Definition deleteSession (confirmed deleted : bool) (sessionId : string)
    (st : State) : State :=
  if negb confirmed then st
  else if negb deleted then st
  else deleteSession_finish sessionId (currentSession st) st.

End Dashboard.

(** A backend that finds one marker in every text, one that always fails
    without a detail, and an upload that succeeds. *)
Definition one_marker_backend (t : string)
  : ManualEntry.Reply ExtractionResult :=
  ManualEntry.ok {| extractedText := t; markers := [scenario_marker];
                    textLength := String.length t; markersFound := 1 |}.

Definition failing_backend (t : string) : ManualEntry.Reply ExtractionResult :=
  ManualEntry.failed None.

Definition accepting_upload (filename text_content : string)
  : ManualEntry.Reply () :=
  ManualEntry.ok ().

(** The form after typing a marker with spaces around it, and after a
    successful test of it. *)
Definition typed_state : ManualEntry.State :=
  ManualEntry.onChange "  GLUCOSE: 95 mg/dL  " ManualEntry.initial.

Definition tested_state : ManualEntry.State :=
  ManualEntry.handleTestText one_marker_backend typed_state.

(** A title of 40 characters. *)
Definition long_title : string := "Questions about my ferritin and glucose.".

(** Two chat sessions and a third one to create. *)
Definition session_a : Dashboard.ChatSession :=
  {| Dashboard.id := "a"; Dashboard.title := "First";
     Dashboard.created_at := "2025-01-01"; Dashboard.messages := [] |}.

Definition session_b : Dashboard.ChatSession :=
  {| Dashboard.id := "b"; Dashboard.title := "Second";
     Dashboard.created_at := "2025-01-02"; Dashboard.messages := [] |}.

Definition session_c : Dashboard.ChatSession :=
  {| Dashboard.id := "c"; Dashboard.title := "Third";
     Dashboard.created_at := "2025-01-03"; Dashboard.messages := [] |}.

Definition two_sessions : Dashboard.State :=
  {| Dashboard.sessions := [session_a; session_b];
     Dashboard.currentSession := Some session_a |}.

(** The order of the four ratings, worst first. *)
Definition rating_rank (r : string) : nat :=
  if String.eqb r "Excellent" then 3
  else if String.eqb r "Good" then 2
  else if String.eqb r "Fair" then 1
  else 0.

(** A summary as a backend without data may send it: all readings zero. *)
Definition all_zero_summary : Summary :=
  {| steps := Some {| latest := Js.num 0; average := Js.num 0 |};
     heart_rate := Some {| latest := Js.num 0; average := Js.num 0 |};
     sleep := Some {| latest := Js.num 0; average := Js.num 0 |} |}.

(** Low steps, heart rate racing, short sleep. *)
Definition poor_summary : Summary :=
  {| steps := Some {| latest := Js.num 5000; average := Js.num 6000 |};
     heart_rate := Some racing_heart;
     sleep := Some {| latest := Js.num 5; average := Js.num 6 |} |}.

(** The grid of cards of [poor_summary]. *)
Definition poor_grid : HS.StatsGrid :=
  {| HS.g_steps := HS.element {| HS.steps_reading := Js.num 5000 |};
     HS.g_heart_rate :=
       HS.element {| HS.hr_reading := Js.num 120; HS.hr_badge := "Check" |};
     HS.g_sleep :=
       HS.element {| HS.sleep_reading := Js.num 5; HS.sleep_label := "Short" |} |}.

(** Steps present, heart rate racing, sleep reading zero. *)
Definition mixed_summary : Summary :=
  {| steps := Some {| latest := Js.num 5000; average := Js.num 6000 |};
     heart_rate := Some racing_heart;
     sleep := Some {| latest := Js.num 0; average := Js.num 0 |} |}.

(** ** Lemmas on the scorer *)

Section scorer_lemmas.
Implicit Types (hs : HealthScore) (r : Report) (rs : list Report)
  (summary : Summary) (k : MetricKind).

Lemma check_unfold k summary hs :
  check k summary hs =
  if triggers k summary then deduct (metric_points k) (metric_factor k) hs else hs.
Proof.
  destruct k; unfold triggers; simpl;
    [unfold check_steps | unfold check_heart_rate | unfold check_sleep];
    by destruct (has_latest _).
Qed.

Lemma is_absent_has_latest (m : option Metric) :
  is_absent m = true → has_latest m = false.
Proof.
  destruct m as [[l a]|]; [|done]. simpl.
  destruct l as [| |q]; simpl; [done..|]. by intros ->.
Qed.

Lemma is_absent_triggers k summary :
  is_absent (metric k summary) = true → triggers k summary = false.
Proof. intros H. unfold triggers. by rewrite (is_absent_has_latest _ H). Qed.

Lemma length_keys_values (o : gmap string HealthMarker) :
  length (Object_keys o) = length (map_to_list o).*2.
Proof. unfold Object_keys. by rewrite !length_fmap. Qed.

Lemma flagged_count_abnormal r : flagged_count r = length (abnormal_markers r).
Proof.
  unfold flagged_count, abnormal_markers.
  destruct (flagged_markers r); [apply length_keys_values | done].
Qed.

Lemma is_flagged_abnormal r :
  is_flagged r = bool_decide (abnormal_markers r ≠ []).
Proof.
  unfold is_flagged, abnormal_markers.
  destruct (flagged_markers r) as [o|]; [|done].
  rewrite length_keys_values.
  by destruct ((map_to_list o).*2).
Qed.

Lemma check_report_unfold hs r :
  check_report hs r =
  {| score := score hs - 20 * Z.of_nat (length (factor_of_report r));
     factors := factors hs ++ factor_of_report r |}.
Proof.
  unfold check_report, factor_of_report, abnormal_factor.
  rewrite is_flagged_abnormal, flagged_count_abnormal.
  destruct (abnormal_markers r) as [|m ms]; simpl.
  - destruct hs; simpl. f_equal; [lia | by rewrite app_nil_r].
  - unfold deduct. f_equal.
Qed.

Lemma foldl_check_report hs rs :
  foldl check_report hs rs =
  {| score := score hs - 20 * Z.of_nat (length (rs ≫= factor_of_report));
     factors := factors hs ++ (rs ≫= factor_of_report) |}.
Proof.
  revert hs. induction rs as [|r rs IH]; intros hs.
  - destruct hs; simpl. f_equal; [lia | by rewrite app_nil_r].
  - cbn [foldl]. rewrite bind_cons, IH, check_report_unfold.
    cbn [score factors].
    rewrite length_app, Nat2Z.inj_add, <- app_assoc. f_equal. lia.
Qed.

Lemma getHealthScore_unfold summary rs :
  getHealthScore summary rs =
  {| score := Z.max 0 (100 - wearable_points summary
                       - 20 * Z.of_nat (length (rs ≫= factor_of_report)));
     factors := factor_of_metric Steps summary
                ++ factor_of_metric HeartRate summary
                ++ factor_of_metric Sleep summary
                ++ (rs ≫= factor_of_report) |}.
Proof.
  unfold getHealthScore. rewrite foldl_check_report.
  change check_steps with (check Steps).
  change check_heart_rate with (check HeartRate).
  change check_sleep with (check Sleep).
  rewrite !check_unfold. unfold wearable_points, factor_of_metric.
  destruct (triggers Steps summary), (triggers HeartRate summary),
    (triggers Sleep summary); simpl; f_equal; f_equal; lia.
Qed.

Lemma wearable_points_bounds summary : 0 ≤ wearable_points summary ≤ 40.
Proof.
  unfold wearable_points.
  destruct (triggers Steps summary), (triggers HeartRate summary),
    (triggers Sleep summary); lia.
Qed.

Lemma rating_thresholds (s : Z) :
  (80 ≤ s ↔ rating s = "Excellent")
  ∧ (60 ≤ s < 80 ↔ rating s = "Good")
  ∧ (40 ≤ s < 60 ↔ rating s = "Fair")
  ∧ (s < 40 ↔ rating s = "Needs Attention").
Proof.
  unfold rating. repeat case_bool_decide; repeat split; intros; try lia; try done.
Qed.

End scorer_lemmas.

(** ** The scorer: properties *)

Section scorer_properties.
Implicit Types (hs : HealthScore) (r : Report) (rs : list Report)
  (summary : Summary) (k : MetricKind).

Lemma abnormal_markers_report_of_marker (m : HealthMarker) :
  abnormal_markers (report_of_marker m) = [m].
Proof.
  unfold abnormal_markers, report_of_marker. cbn [flagged_markers].
  by rewrite map_to_list_singleton.
Qed.

Lemma last_char_app (s t : string) :
  t ≠ EmptyString → last_char (s +:+ t) = last_char t.
Proof.
  intros Ht. induction s as [|c s IH]; [done|].
  change (String c s +:+ t) with (String c (s +:+ t)).
  cbn [last_char]. rewrite <- IH.
  destruct (s +:+ t) eqn:E; [|done].
  destruct s; [|discriminate]. by destruct Ht.
Qed.

Lemma metric_factor_not_report_factor k rs :
  metric_factor k ∉ rs ≫= factor_of_report.
Proof.
  intros (r & Hin & _)%list_elem_of_bind.
  unfold factor_of_report in Hin.
  destruct (abnormal_markers r) as [|m ms]; [by apply elem_of_nil in Hin|].
  apply list_elem_of_singleton in Hin.
  apply (f_equal last_char) in Hin.
  rewrite last_char_app in Hin by done.
  by destruct k.
Qed.

Lemma length_report_factors rs :
  length (rs ≫= factor_of_report)
  = length (filter (λ r, abnormal_markers r ≠ []) rs).
Proof.
  induction rs as [|r rs IH]; [done|].
  rewrite bind_cons, length_app, filter_cons, IH.
  unfold factor_of_report.
  destruct (abnormal_markers r); by case_decide.
Qed.

(** C1.  With [steps.latest = 5000], [heart_rate.latest = 72],
    [sleep.latest = 8] and one report that holds one marker of status
    high, [getHealthScore] returns score 70 with factors
    ["Low step count"; "1 abnormal lab markers"] in that order, and the
    rating of that score is "Good". *)
Theorem scenario_one_abnormal_report (m : HealthMarker) :
  status m = High →
  getHealthScore scenario_summary [report_of_marker m]
  = {| score := 70;
       factors := ["Low step count"; "1 abnormal lab markers"] |}
  ∧ rating (score (getHealthScore scenario_summary [report_of_marker m]))
    = "Good".
Proof.
  intros _.
  assert (getHealthScore scenario_summary [report_of_marker m]
          = {| score := 70;
               factors := ["Low step count"; "1 abnormal lab markers"] |})
    as ->; [|done].
  rewrite getHealthScore_unfold, bind_cons. unfold factor_of_report.
  by rewrite abnormal_markers_report_of_marker.
Qed.

(** C2.  The rating of every score the scorer returns follows the four
    thresholds, which do not overlap: at least 80 is "Excellent", from 60
    below 80 is "Good", from 40 below 60 is "Fair", below 40 is
    "Needs Attention". *)
Theorem rating_of_returned_score summary rs :
  let s := score (getHealthScore summary rs) in
  (80 ≤ s ↔ rating s = "Excellent")
  ∧ (60 ≤ s < 80 ↔ rating s = "Good")
  ∧ (40 ≤ s < 60 ↔ rating s = "Fair")
  ∧ (s < 40 ↔ rating s = "Needs Attention").
Proof. intros s. apply rating_thresholds. Qed.

(** C3.  The returned score lies in [0, 100]; appending a report (an
    abnormal one in particular) never increases it; and replacing an
    absent metric by any metric (one that triggers its deduction in
    particular) never increases it. *)
Theorem score_range_and_monotone summary rs :
  0 ≤ score (getHealthScore summary rs) ≤ 100
  ∧ (∀ r, score (getHealthScore summary (rs ++ [r]))
          ≤ score (getHealthScore summary rs))
  ∧ (∀ k m, is_absent (metric k summary) = true →
            score (getHealthScore (set_metric k (Some m) summary) rs)
            ≤ score (getHealthScore summary rs)).
Proof.
  split; [|split].
  - rewrite getHealthScore_unfold. cbn [score].
    pose proof (wearable_points_bounds summary). lia.
  - intros r. rewrite !getHealthScore_unfold. cbn [score].
    rewrite bind_app, length_app. lia.
  - intros k m Habs. rewrite !getHealthScore_unfold. cbn [score].
    apply is_absent_triggers in Habs.
    assert (wearable_points summary
            ≤ wearable_points (set_metric k (Some m) summary)); [|lia].
    unfold wearable_points.
    destruct k; cbn [metric] in Habs; rewrite Habs;
      unfold triggers; cbn [metric set_metric steps heart_rate sleep];
      repeat match goal with |- context [if ?b then _ else _] =>
        destruct b end; lia.
Qed.

(** C4.  A metric whose latest value is zero, null or missing is treated
    as absent: its check leaves score and factors as they are, the result
    is that of the summary without the metric, and the metric's factor is
    not among the returned factors. *)
Theorem absent_metric_ignored k summary hs rs :
  is_absent (metric k summary) = true →
  check k summary hs = hs
  ∧ getHealthScore summary rs = getHealthScore (set_metric k None summary) rs
  ∧ metric_factor k ∉ factors (getHealthScore summary rs).
Proof.
  intros Habs. pose proof (is_absent_triggers _ _ Habs) as Htr.
  split_and!.
  - by rewrite check_unfold, Htr.
  - rewrite !getHealthScore_unfold.
    unfold wearable_points, factor_of_metric.
    destruct k; cbn [metric] in Htr; rewrite Htr;
      unfold triggers; by cbn [metric set_metric steps heart_rate sleep has_latest andb].
  - rewrite getHealthScore_unfold. cbn [factors].
    rewrite !elem_of_app. unfold factor_of_metric at 1 2 3.
    intros [H|[H|[H|H]]];
      [ | | | by apply metric_factor_not_report_factor in H];
      destruct k; cbn [metric] in Htr;
      repeat match type of H with context [if ?b then _ else _] =>
        destruct b end;
      try (by apply elem_of_nil in H);
      try (by apply list_elem_of_singleton in H).
Qed.

(** C5.  A report with one or more abnormal markers contributes exactly
    one deduction of 20, whatever the number of its abnormal markers, and
    exactly one factor "<count> abnormal lab markers" with their count; a
    report with none contributes nothing.  So the score drops by 20 per
    such report (before the floor at 0) and the report factors follow the
    reports. *)
Theorem report_deduction_per_result summary rs hs r :
  check_report hs r
  = match abnormal_markers r with
    | [] => hs
    | ms => {| score := score hs - 20;
               factors := factors hs
                 ++ [pretty (length ms) +:+ " abnormal lab markers"] |}
    end
  ∧ score (getHealthScore summary rs)
    = Z.max 0 (score (getHealthScore summary [])
               - 20 * Z.of_nat (length
                        (filter (λ r, abnormal_markers r ≠ []) rs)))
  ∧ factors (getHealthScore summary rs)
    = factors (getHealthScore summary []) ++ (rs ≫= factor_of_report).
Proof.
  split_and!.
  - rewrite check_report_unfold. unfold factor_of_report.
    destruct (abnormal_markers r); cbn [length]; [|f_equal; lia].
    destruct hs; cbn [score factors]. f_equal; [lia | by rewrite app_nil_r].
  - rewrite !getHealthScore_unfold. cbn [score].
    rewrite <- length_report_factors.
    pose proof (wearable_points_bounds summary).
    change (length ([] ≫= factor_of_report)) with 0%nat. lia.
  - rewrite !getHealthScore_unfold. cbn [factors].
    change ([] ≫= factor_of_report) with (@nil string).
    by rewrite app_nil_r, <- !app_assoc.
Qed.

(** C6.  With every wearable metric absent and no report the scorer
    returns score 100 and no factor, and the rating of that score is
    "Excellent". *)
Theorem empty_inputs_score summary :
  is_absent (steps summary) = true →
  is_absent (heart_rate summary) = true →
  is_absent (sleep summary) = true →
  getHealthScore summary [] = {| score := 100; factors := [] |}
  ∧ rating (score (getHealthScore summary [])) = "Excellent".
Proof.
  intros H1 H2 H3.
  assert (getHealthScore summary [] = {| score := 100; factors := [] |})
    as ->; [|done].
  rewrite getHealthScore_unfold. unfold wearable_points, factor_of_metric.
  by rewrite (is_absent_triggers Steps), (is_absent_triggers HeartRate),
    (is_absent_triggers Sleep).
Qed.

(** C9.  The returned factors are, in this order: the step-count factor if
    any, the heart-rate factor if any, the sleep factor if any, then one
    factor per flagged report in the order of the report list. *)
Theorem factors_order summary rs :
  factors (getHealthScore summary rs)
  = factor_of_metric Steps summary
    ++ factor_of_metric HeartRate summary
    ++ factor_of_metric Sleep summary
    ++ (rs ≫= factor_of_report).
Proof. by rewrite getHealthScore_unfold. Qed.

(** C10.  Without reports the score is at least 60, so its rating is
    "Excellent" or "Good". *)
Theorem wearable_only_score summary :
  60 ≤ score (getHealthScore summary [])
  ∧ (rating (score (getHealthScore summary [])) = "Excellent"
     ∨ rating (score (getHealthScore summary [])) = "Good").
Proof.
  assert (60 ≤ score (getHealthScore summary [])) as H.
  { rewrite getHealthScore_unfold. cbn [score].
    pose proof (wearable_points_bounds summary).
    change (length ([] ≫= factor_of_report)) with 0%nat. lia. }
  split; [done|].
  destruct (rating_thresholds (score (getHealthScore summary [])))
    as (HE & HG & _).
  destruct (decide (80 ≤ score (getHealthScore summary []))).
  - left. by apply HE.
  - right. apply HG. lia.
Qed.

End scorer_properties.

(** ** The extractor: lemmas *)

Section extractor_lemmas.
Variable table : list MarkerDefinition.
Variable render_range : Q → Q → string.

Lemma Qltb_lt (x y : Q) : Qltb x y = true ↔ (x < y)%Q.
Proof.
  unfold Qltb. rewrite negb_true_iff, <- not_true_iff_false, Qle_bool_iff.
  split; [apply Qnot_le_lt | apply Qlt_not_le].
Qed.

Lemma Qltb_ge (x y : Q) : Qltb x y = false ↔ (y <= x)%Q.
Proof.
  unfold Qltb. by rewrite negb_false_iff, Qle_bool_iff.
Qed.

(** The three statuses against bounds in the right order. *)
Lemma classify_spec (d : MarkerDefinition) (v : Q) :
  (low d <= high d)%Q →
  (classify d v = Low ↔ (v < low d)%Q)
  ∧ (classify d v = High ↔ (high d < v)%Q)
  ∧ (classify d v = Normal ↔ (low d <= v)%Q ∧ (v <= high d)%Q).
Proof.
  intros Hd. unfold classify.
  destruct (Qltb v (low d)) eqn:E1.
  - apply Qltb_lt in E1. split_and!; split; try done.
    + intros H. exfalso. apply (Qlt_irrefl v).
      eapply Qlt_le_trans; [exact E1|]. eapply Qle_trans; [exact Hd|].
      by apply Qlt_le_weak.
    + intros [H _]. exfalso. by apply (Qlt_not_le _ _ E1).
  - apply Qltb_ge in E1. destruct (Qltb (high d) v) eqn:E2.
    + apply Qltb_lt in E2. split_and!; split; try done.
      * intros H. exfalso. by apply (Qlt_not_le _ _ H).
      * intros [_ H]. exfalso. by apply (Qlt_not_le _ _ E2).
    + apply Qltb_ge in E2. split_and!; split; try done.
      * intros H. exfalso. by apply (Qlt_not_le _ _ H).
      * intros H. exfalso. by apply (Qlt_not_le _ _ H).
Qed.

Lemma elem_of_insert_by {A : Type} (le : A → A → bool) (x y : A) (l : list A) :
  y ∈ insert_by le x l ↔ y = x ∨ y ∈ l.
Proof.
  induction l as [|z l IH]; simpl.
  - rewrite list_elem_of_singleton, elem_of_nil. tauto.
  - destruct (le x z); rewrite !elem_of_cons; [done|].
    rewrite IH. tauto.
Qed.

Lemma elem_of_sort_by {A : Type} (le : A → A → bool) (y : A) (l : list A) :
  y ∈ sort_by le l ↔ y ∈ l.
Proof.
  unfold sort_by. induction l as [|x l IH]; simpl; [done|].
  by rewrite elem_of_insert_by, IH, elem_of_cons.
Qed.

Lemma elem_of_alias_pairs (ad : string * MarkerDefinition) :
  ad ∈ alias_pairs table → ad.2 ∈ table.
Proof.
  unfold alias_pairs. intros (d & Hin & Hd)%list_elem_of_bind.
  apply list_elem_of_fmap in Hin as (a & -> & _). done.
Qed.

Lemma match_at_def norm working ad i m :
  match_at norm working ad i = Some m → m_def m = ad.2.
Proof.
  unfold match_at. case_bool_decide; [|done].
  destruct (find_number _ _ _ _) as [[[v s] e]|]; [|done].
  destruct (unit_at _ _ _). by intros [= <-].
Qed.

(** The definition of every match is the one paired with the alias. *)
Lemma scan_alias_defs (P : MarkerDefinition → Prop) norm working ms ad :
  Forall (λ m, P (m_def m)) ms → P ad.2 →
  Forall (λ m, P (m_def m)) (scan_alias norm working ms ad).
Proof.
  unfold scan_alias. generalize (seq 0 (length norm)). intros idxs.
  revert ms. induction idxs as [|i idxs IH]; intros ms Hms Had; simpl; [done|].
  apply IH; [|done].
  destruct (match_at norm working ad i) as [m|] eqn:E; [|done].
  destruct (span_free ms m); [|done].
  apply Forall_app. split; [done|]. apply Forall_singleton.
  by rewrite (match_at_def _ _ _ _ _ E).
Qed.

Lemma find_matches_defs text :
  Forall (λ m, m_def m ∈ table) (find_matches table text).
Proof.
  unfold find_matches.
  assert (Forall (λ ad, ad.2 ∈ table) (longest_first (alias_pairs table)))
    as Hads.
  { apply Forall_forall. intros ad Hin. apply elem_of_alias_pairs.
    by apply elem_of_sort_by in Hin. }
  revert Hads. generalize (longest_first (alias_pairs table)). intros ads.
  generalize (collapse_ws (String.list_ascii_of_string text)). intros norm.
  assert (Forall (λ m, m_def m ∈ table) []) as Hnil by constructor.
  revert Hnil. generalize (@nil Match).
  induction ads as [|ad ads IH]; intros ms Hms Hads; simpl; [done|].
  apply Forall_cons in Hads as [Had Hads].
  apply IH; [|done]. by apply (scan_alias_defs (λ d, d ∈ table)).
Qed.

(** *** Text without digits *)

Lemma collapse_ws_no_digit l : no_digit l → no_digit (collapse_ws l).
Proof.
  unfold no_digit. induction 1 as [|c l Hc Hl IH]; simpl; [constructor|].
  destruct (is_space c).
  - destruct l as [|c' l']; [by repeat constructor|].
    destruct (is_space c'); [done|]. by constructor.
  - by constructor.
Qed.

Lemma find_number_no_digit window prev l offset :
  no_digit l → find_number window prev l offset = None.
Proof.
  intros Hl. revert window prev offset.
  induction Hl as [|c l Hc Hl IH]; intros [|w] prev offset; simpl; try done.
  by rewrite Hc.
Qed.

Lemma match_at_no_digit norm working ad i :
  no_digit norm → match_at norm working ad i = None.
Proof.
  intros Hn. unfold match_at. case_bool_decide; [|done].
  rewrite find_number_no_digit; [done|]. by apply Forall_drop.
Qed.

Lemma scan_alias_no_digit norm working ms ad :
  no_digit norm → scan_alias norm working ms ad = ms.
Proof.
  intros Hn. unfold scan_alias. generalize (seq 0 (length norm)).
  intros idxs. induction idxs as [|i idxs IH]; simpl; [done|].
  by rewrite match_at_no_digit.
Qed.

Lemma find_matches_no_digit text :
  no_digit (String.list_ascii_of_string text) → find_matches table text = [].
Proof.
  intros Hn%collapse_ws_no_digit. unfold find_matches.
  generalize (longest_first (alias_pairs table)). intros ads.
  induction ads as [|ad ads IH]; simpl; [done|].
  by rewrite scan_alias_no_digit.
Qed.

Lemma extract_no_digit text :
  no_digit (String.list_ascii_of_string text) →
  markers (extract table render_range text) = []
  ∧ markersFound (extract table render_range text) = 0%nat.
Proof.
  intros Hn. unfold extract. cbn [markers markersFound].
  by rewrite find_matches_no_digit.
Qed.

(** *** Texts with and without a recognizable marker *)

Lemma existsb_false_iff {A : Type} (f : A → bool) (l : list A) :
  existsb f l = false ↔ ∀ x, x ∈ l → f x = false.
Proof.
  induction l as [|y l IH]; simpl.
  - split; [intros _ x Hx; by apply elem_of_nil in Hx | done].
  - rewrite orb_false_iff, IH. split.
    + intros [Hy Hl] x [->|Hx]%elem_of_cons; auto.
    + intros H. split; [apply H; left | intros x Hx; apply H; by right].
Qed.

Lemma scan_alias_positions norm working ms ad :
  scan_alias norm working ms ad
  = scan_positions norm working ad ms (seq 0 (length norm)).
Proof. done. Qed.

(** A scan only appends: what was matched stays, in place. *)
Lemma scan_positions_prefix norm working ad ms idxs :
  ms `prefix_of` scan_positions norm working ad ms idxs.
Proof.
  unfold scan_positions. revert ms.
  induction idxs as [|i idxs IH]; intros ms; simpl; [done|].
  etrans; [|apply IH].
  destruct (match_at norm working ad i) as [m|]; [|done].
  destruct (span_free ms m); [by apply prefix_app_r | done].
Qed.

Lemma prefix_not_nil {A : Type} (l k : list A) :
  l `prefix_of` k → l ≠ [] → k ≠ [].
Proof. intros [k' ->] Hl. by destruct l. Qed.

(** A scan that meets a match is not empty: the first match finds every
    span free. *)
Lemma scan_positions_finds norm working ad ms idxs :
  ms ≠ [] ∨ (∃ i, i ∈ idxs ∧ is_Some (match_at norm working ad i)) →
  scan_positions norm working ad ms idxs ≠ [].
Proof.
  intros [Hne|(i & Hi & Hsome)].
  { by eapply prefix_not_nil; [apply scan_positions_prefix|]. }
  revert ms. induction idxs as [|j idxs IH]; intros ms.
  { by apply elem_of_nil in Hi. }
  destruct ms as [|m0 ms].
  2:{ by eapply prefix_not_nil; [apply scan_positions_prefix|]. }
  apply elem_of_cons in Hi as [->|Hi].
  - destruct Hsome as [m Hm]. unfold scan_positions. simpl. rewrite Hm.
    simpl. by eapply prefix_not_nil; [apply scan_positions_prefix|].
  - unfold scan_positions. simpl. fold (scan_positions norm working ad).
    destruct (match_at norm working ad j) as [m|]; simpl.
    + by eapply prefix_not_nil; [apply scan_positions_prefix|].
    + by apply IH.
Qed.

Lemma scan_positions_none norm working ad ms idxs :
  (∀ i, i ∈ idxs → match_at norm working ad i = None) →
  scan_positions norm working ad ms idxs = ms.
Proof.
  unfold scan_positions. revert ms.
  induction idxs as [|i idxs IH]; intros ms H; simpl; [done|].
  rewrite (H i) by left. apply IH. intros j Hj. apply H. by right.
Qed.

Lemma foldl_scan_alias_prefix norm working ms ads :
  ms `prefix_of` foldl (scan_alias norm working) ms ads.
Proof.
  revert ms. induction ads as [|ad ads IH]; intros ms; simpl; [done|].
  etrans; [|apply IH]. rewrite scan_alias_positions.
  apply scan_positions_prefix.
Qed.

Lemma foldl_scan_alias_finds norm working ms ads :
  (∃ ad i, ad ∈ ads ∧ i ∈ seq 0 (length norm)
           ∧ is_Some (match_at norm working ad i)) →
  foldl (scan_alias norm working) ms ads ≠ [].
Proof.
  intros (ad & i & Had & Hi & Hsome). revert ms.
  induction ads as [|ad' ads IH]; intros ms.
  { by apply elem_of_nil in Had. }
  simpl. apply elem_of_cons in Had as [->|Had]; [|by apply IH].
  eapply prefix_not_nil; [apply foldl_scan_alias_prefix|].
  rewrite scan_alias_positions. apply scan_positions_finds. eauto.
Qed.

Lemma foldl_scan_alias_none norm working ms ads :
  (∀ ad i, ad ∈ ads → i ∈ seq 0 (length norm) →
           match_at norm working ad i = None) →
  foldl (scan_alias norm working) ms ads = ms.
Proof.
  revert ms. induction ads as [|ad ads IH]; intros ms H; simpl; [done|].
  rewrite scan_alias_positions, scan_positions_none.
  - apply IH. intros ad' i Had'. apply H. by right.
  - intros i. apply H. left.
Qed.

Lemma recognizable_false text :
  recognizable table text = false
  ↔ ∀ ad i, ad ∈ alias_pairs table
      → i ∈ seq 0 (length (collapse_ws (String.list_ascii_of_string text)))
      → match_at (collapse_ws (String.list_ascii_of_string text))
          (upper <$> collapse_ws (String.list_ascii_of_string text)) ad i
        = None.
Proof.
  unfold recognizable. rewrite existsb_false_iff. split.
  - intros H ad i Had Hi. specialize (H ad Had).
    rewrite existsb_false_iff in H. specialize (H i Hi).
    apply bool_decide_eq_false in H.
    destruct (match_at _ _ ad i); [|done]. by destruct H.
  - intros H ad Had. apply existsb_false_iff. intros i Hi.
    rewrite (H ad i Had Hi). by apply bool_decide_eq_false_2; intros [].
Qed.

(** The matching pass finds nothing exactly when the text has no
    recognizable marker. *)
Lemma find_matches_nil text :
  find_matches table text = [] ↔ recognizable table text = false.
Proof.
  rewrite recognizable_false. unfold find_matches. split.
  - intros Hnil ad i Had Hi.
    destruct (match_at _ _ ad i) as [m|] eqn:E; [|done].
    exfalso. revert Hnil. apply foldl_scan_alias_finds.
    exists ad, i. split; [by apply elem_of_sort_by|]. split; [done|].
    rewrite E. by eexists.
  - intros H. apply foldl_scan_alias_none. intros ad i Had.
    apply H. by apply elem_of_sort_by in Had.
Qed.

Lemma sort_by_nil {A : Type} (le : A → A → bool) (l : list A) :
  sort_by le l = [] ↔ l = [].
Proof.
  split; [|by intros ->]. destruct l as [|x l]; [done|]. intros H.
  assert (x ∈ sort_by le (x :: l)) as Hx by (apply elem_of_sort_by; left).
  rewrite H in Hx. by apply elem_of_nil in Hx.
Qed.

Lemma extract_markers_nil text :
  markers (extract table render_range text) = []
  ↔ recognizable table text = false.
Proof.
  rewrite <- find_matches_nil. unfold extract. cbn [markers].
  rewrite <- (sort_by_nil (λ x y, m_start x <=? m_start y)%nat).
  split; [apply fmap_nil_inv | by intros ->].
Qed.

(** Without the name of a marker, and without a digit, nothing is
    recognizable. *)
Lemma names_marker_recognizable text :
  names_marker table text = false → recognizable table text = false.
Proof.
  unfold names_marker. rewrite existsb_false_iff, recognizable_false.
  intros H ad i Had Hi. specialize (H ad Had).
  rewrite existsb_false_iff in H. specialize (H i Hi).
  unfold alias_at in H. unfold match_at. by rewrite H.
Qed.

Lemma no_digit_recognizable text :
  no_digit (String.list_ascii_of_string text) →
  recognizable table text = false.
Proof.
  intros Hn%collapse_ws_no_digit. apply recognizable_false.
  intros ad i _ _. by apply match_at_no_digit.
Qed.

End extractor_lemmas.

(** ** The extractor: properties *)

Section extractor_properties.
Variable table : list MarkerDefinition.
Variable render_range : Q → Q → string.

(** C7.  Every marker the extractor returns was matched against a
    definition of the table, whose name it carries, and with bounds
    [low <= high] its status is low exactly when its value is below
    [low], high exactly when its value is above [high], normal exactly
    when it lies between the two; its recommendation is
    [recommendation_low] for low, [recommendation_high] for high and the
    empty string for normal. *)
Theorem matched_marker_classification (text : string) (m : HealthMarker) :
  Forall (λ d, (low d <= high d)%Q) table →
  m ∈ markers (extract table render_range text) →
  ∃ d, d ∈ table
    ∧ name m = canonical_name d
    ∧ (status m = Low ↔ (value m < low d)%Q)
    ∧ (status m = High ↔ (high d < value m)%Q)
    ∧ (status m = Normal ↔ (low d <= value m)%Q ∧ (value m <= high d)%Q)
    ∧ recommendation m = match status m with
                         | Low => recommendation_low d
                         | High => recommendation_high d
                         | Normal => ""
                         end.
Proof.
  intros Htable Hm. unfold extract in Hm. cbn [markers] in Hm.
  apply list_elem_of_fmap in Hm as (mt & -> & Hmt).
  apply elem_of_sort_by in Hmt.
  pose proof (find_matches_defs table text) as Hdefs.
  rewrite Forall_forall in Hdefs. specialize (Hdefs _ Hmt).
  rewrite Forall_forall in Htable. specialize (Htable _ Hdefs).
  exists (m_def mt). split; [done|]. split; [done|].
  destruct (classify_spec (m_def mt) (m_value mt) Htable) as (HL & HH & HN).
  by split_and!.
Qed.

(** C8.  On every text [extract] returns a result and no error, and the
    number of markers it reports is the length of its marker list.  A text
    without a recognizable marker, and only such a text, yields no marker
    and the count 0; a text in which no alias of the table occurs has none,
    and neither has a text without a digit.  The text
    "The patient feels fine today." yields no marker and the count 0,
    whatever the table. *)
Theorem extract_never_fails (text : string) :
  extract_checked table render_range (Some text)
  = inr (extract table render_range text)
  ∧ markersFound (extract table render_range text)
    = length (markers (extract table render_range text))
  ∧ (recognizable table text = false
     ↔ markers (extract table render_range text) = []
       ∧ markersFound (extract table render_range text) = 0%nat)
  ∧ (names_marker table text = false → recognizable table text = false)
  ∧ (no_digit (String.list_ascii_of_string text) →
       recognizable table text = false)
  ∧ markers (extract table render_range "The patient feels fine today.") = []
  ∧ markersFound (extract table render_range "The patient feels fine today.")
    = 0%nat.
Proof.
  split; [done|]. split; [done|]. split.
  { rewrite <- extract_markers_nil. split; [|by intros [? _]].
    intros H. split; [done|].
    change (length (markers (extract table render_range text)) = 0%nat).
    by rewrite H. }
  split; [apply names_marker_recognizable|].
  split; [apply no_digit_recognizable|].
  apply extract_no_digit. unfold no_digit.
  apply Forall_forall. intros c Hc. simpl in Hc.
  repeat (apply elem_of_cons in Hc as [->|Hc]; [done|]).
  by apply elem_of_nil in Hc.
Qed.

End extractor_properties.

(** ** Examples *)

(** The manual-entry scenario of the specification: one FERRITIN marker of
    value 22, unit ng/mL, status low, with its recommendation. *)
Example extract_scenario :
  markers (extract sample_table sample_range scenario_text) = [scenario_marker]
  ∧ markersFound (extract sample_table sample_range scenario_text) = 1%nat.
Proof. by vm_compute. Qed.

(** The longer alias wins and consumes its span: one marker, not two. *)
Example extract_longest_alias :
  (λ m, (name m, Qred (value m), unit m, status m))
    <$> markers (extract sample_table sample_range serum_text)
  = [("FERRITIN", (45 # 2)%Q, "ng/ml", Low)].
Proof. by vm_compute. Qed.

(** Repeated mentions give separate markers in the order of the text; the
    negative number is no match. *)
Example extract_repeated :
  (λ m, (name m, Qred (value m), unit m, status m))
    <$> markers (extract sample_table sample_range repeated_text)
  = [("GLUCOSE", 95%Q, "mg/dL", Normal); ("GLUCOSE", (405 # 4)%Q, "mg/dL", High)].
Proof. by vm_compute. Qed.

(** Six flagged reports on top of all wearable deductions: the raw score
    would be negative and is floored at 0. *)
Example score_floor :
  score (getHealthScore
           {| steps := Some {| latest := Js.num 100; average := Js.null |};
              heart_rate := Some racing_heart;
              sleep := Some {| latest := Js.num (9 # 2); average := Js.null |} |}
           (replicate 6 (report_of_marker high_marker))) = 0.
Proof. by vm_compute. Qed.

(** A negative reading is truthy but not above 0: no deduction. *)
Example score_negative_reading :
  getHealthScore
    {| steps := Some {| latest := Js.num (-5); average := Js.null |};
       heart_rate := None; sleep := None |} []
  = {| score := 100; factors := [] |}.
Proof. by vm_compute. Qed.

(** ** Instances *)

Lemma score_range_and_monotone_witness :
  is_absent (metric HeartRate zero_summary) = true
  ∧ 0 ≤ score (getHealthScore zero_summary [report_of_marker high_marker]) ≤ 100
  ∧ score (getHealthScore zero_summary
             ([report_of_marker high_marker] ++ [report_of_marker scenario_marker]))
    ≤ score (getHealthScore zero_summary [report_of_marker high_marker])
  ∧ score (getHealthScore (set_metric HeartRate (Some racing_heart) zero_summary)
             [report_of_marker high_marker])
    ≤ score (getHealthScore zero_summary [report_of_marker high_marker]).
Proof.
  destruct (score_range_and_monotone zero_summary [report_of_marker high_marker])
    as (Hrange & Happ & Hmetric).
  split; [reflexivity|]. split; [exact Hrange|].
  split; [apply Happ | apply Hmetric; reflexivity].
Defined.

Lemma scenario_one_abnormal_report_witness :
  status high_marker = High
  ∧ getHealthScore scenario_summary [report_of_marker high_marker]
    = {| score := 70;
         factors := ["Low step count"; "1 abnormal lab markers"] |}
  ∧ rating (score (getHealthScore scenario_summary [report_of_marker high_marker]))
    = "Good".
Proof.
  split; [reflexivity|].
  apply (scenario_one_abnormal_report high_marker). reflexivity.
Defined.

Lemma absent_metric_ignored_witness :
  is_absent (metric HeartRate zero_summary) = true
  ∧ check HeartRate zero_summary {| score := 100; factors := [] |}
    = {| score := 100; factors := [] |}
  ∧ getHealthScore zero_summary []
    = getHealthScore (set_metric HeartRate None zero_summary) []
  ∧ metric_factor HeartRate ∉ factors (getHealthScore zero_summary []).
Proof.
  split; [reflexivity|].
  apply (absent_metric_ignored HeartRate zero_summary). reflexivity.
Defined.

Lemma empty_inputs_score_witness :
  (is_absent (steps empty_summary) = true
   ∧ is_absent (heart_rate empty_summary) = true
   ∧ is_absent (sleep empty_summary) = true)
  ∧ getHealthScore empty_summary [] = {| score := 100; factors := [] |}
  ∧ rating (score (getHealthScore empty_summary [])) = "Excellent".
Proof.
  split; [by repeat split|].
  apply (empty_inputs_score empty_summary); reflexivity.
Defined.

Lemma matched_marker_classification_witness :
  Forall (λ d, (low d <= high d)%Q) sample_table
  ∧ scenario_marker ∈ markers (extract sample_table sample_range scenario_text)
  ∧ ∃ d, d ∈ sample_table
      ∧ name scenario_marker = canonical_name d
      ∧ (status scenario_marker = Low ↔ (value scenario_marker < low d)%Q)
      ∧ (status scenario_marker = High ↔ (high d < value scenario_marker)%Q)
      ∧ (status scenario_marker = Normal
         ↔ (low d <= value scenario_marker)%Q
           ∧ (value scenario_marker <= high d)%Q)
      ∧ recommendation scenario_marker
        = match status scenario_marker with
          | Low => recommendation_low d
          | High => recommendation_high d
          | Normal => ""
          end.
Proof.
  assert (scenario_marker
          ∈ markers (extract sample_table sample_range scenario_text)) as Hin.
  { vm_compute. left. }
  assert (Forall (λ d, (low d <= high d)%Q) sample_table) as Hbounds.
  { repeat constructor; discriminate. }
  split; [exact Hbounds|]. split; [exact Hin|].
  exact (matched_marker_classification sample_table sample_range
           scenario_text scenario_marker Hbounds Hin).
Defined.


Lemma extract_never_fails_witness :
  names_marker sample_table age_text = false
  ∧ recognizable sample_table scenario_text = true
  ∧ markers (extract sample_table sample_range age_text) = []
  ∧ markersFound (extract sample_table sample_range age_text) = 0%nat.
Proof.
  assert (names_marker sample_table age_text = false) as H by (by vm_compute).
  split; [exact H|]. split; [by vm_compute|].
  destruct (extract_never_fails sample_table sample_range age_text)
    as (_ & _ & Hiff & Hname & _).
  exact (proj1 Hiff (Hname H)).
Defined.

(** ** More on the scorer and on the page of [HealthSummary] *)

Section summary_page.
Implicit Types (s : Summary) (r : Report) (rs : list Report) (k : MetricKind).

Lemma factor_of_report_nil r : factor_of_report r = [] ↔ is_flagged r = false.
Proof.
  rewrite is_flagged_abnormal. unfold factor_of_report.
  destruct (abnormal_markers r); [|done].
  split; [intros _|done]. by apply bool_decide_eq_false_2; intros [].
Qed.

Lemma length_factor_of_report r :
  length (factor_of_report r) = if is_flagged r then 1%nat else 0%nat.
Proof.
  rewrite is_flagged_abnormal. unfold factor_of_report.
  by destruct (abnormal_markers r).
Qed.

Lemma length_report_factors_flagged rs :
  length (rs ≫= factor_of_report) = length (List.filter is_flagged rs).
Proof.
  induction rs as [|r rs IH]; [done|].
  rewrite bind_cons, length_app, length_factor_of_report, IH. simpl.
  by destruct (is_flagged r).
Qed.

Lemma report_factors_nil rs :
  rs ≫= factor_of_report = [] ↔ Forall (λ r, is_flagged r = false) rs.
Proof.
  induction rs as [|r rs IH]; [by split; [constructor|]|].
  rewrite bind_cons, Forall_cons, <- IH, <- factor_of_report_nil.
  split; [by intros [-> ->]%app_eq_nil | by intros [-> ->]].
Qed.

Lemma length_filter_le {A : Type} (f : A → bool) (l : list A) :
  (length (List.filter f l) ≤ length l)%nat.
Proof. induction l as [|x l IH]; simpl; [lia|]. destruct (f x); simpl; lia. Qed.

Lemma metric_factor_inj k k' : metric_factor k = metric_factor k' → k = k'.
Proof. by destruct k, k'. Qed.

Lemma elem_of_factor_of_metric k k' s :
  metric_factor k ∈ factor_of_metric k' s ↔ k = k' ∧ triggers k' s = true.
Proof.
  unfold factor_of_metric. destruct (triggers k' s).
  - rewrite list_elem_of_singleton. split.
    + by intros ->%metric_factor_inj.
    + by intros [-> _].
  - rewrite elem_of_nil. by split; [|intros [_ ?]].
Qed.

(** A metric's factor is among the returned factors exactly when its check
    fires. *)
Lemma metric_factor_in_factors k s rs :
  metric_factor k ∈ factors (getHealthScore s rs) ↔ triggers k s = true.
Proof.
  rewrite getHealthScore_unfold. cbn [factors].
  rewrite !elem_of_app, !elem_of_factor_of_metric.
  split.
  - intros [[-> H]|[[-> H]|[[-> H]|H]]]; try done.
    by apply metric_factor_not_report_factor in H.
  - intros H. destruct k; auto.
Qed.

Lemma triggers_has_latest k s : triggers k s = true → has_latest (metric k s) = true.
Proof. unfold triggers. by intros [? _]%andb_true_iff. Qed.

Lemma truthy_latest_guard (m : option Metric) :
  HS.truthy (HS.latest_guard m) = has_latest m.
Proof.
  destruct m as [[l a]|]; [|done]. unfold HS.latest_guard, has_latest.
  cbn [latest]. destruct (Js.truthy l) eqn:E; [done|].
  by destruct l.
Qed.

Lemma truthy_hasWearableData s :
  HS.truthy (HS.hasWearableData s)
  = has_latest (steps s) || has_latest (heart_rate s) || has_latest (sleep s).
Proof.
  unfold HS.hasWearableData, HS.or.
  rewrite <- !truthy_latest_guard.
  destruct (HS.truthy (HS.latest_guard (steps s))) eqn:E1; simpl.
  - by rewrite E1, E1.
  - by destruct (HS.truthy (HS.latest_guard (heart_rate s))) eqn:E2.
Qed.

(** The slot of a guarded block has the shape of the guard. *)
Lemma shape_and_then_latest_guard {A : Type} (m : option Metric) (e : A) :
  HS.shape (HS.and_then (HS.latest_guard m) e) = HS.guard_shape m.
Proof.
  unfold HS.guard_shape. destruct m as [[l a]|]; [|done].
  unfold HS.latest_guard, has_latest, HS.zero_latest. cbn [latest].
  destruct l as [| |q]; try done.
  cbn [Js.truthy HS.of_value].
  destruct (Qeq_bool q 0) eqn:E; cbn [negb andb HS.and_then HS.shape].
  - by rewrite E.
  - by destruct (Js.gt (Js.num q) 0).
Qed.

Lemma shape_and_then_truthy {A : Type} (g : HS.Guard) (e : A) :
  HS.truthy g = true → HS.shape (HS.and_then g e) = HS.shown.
Proof.
  destruct g as [| |q|[]]; try done. simpl. by destruct (Qeq_bool q 0).
Qed.

Lemma shape_and_then_hasWearableData {A : Type} s (e : A) :
  HS.shape (HS.and_then (HS.hasWearableData s) e)
  = if has_latest (steps s) || has_latest (heart_rate s) then HS.shown
    else HS.guard_shape (sleep s).
Proof.
  rewrite <- (truthy_latest_guard (steps s)),
    <- (truthy_latest_guard (heart_rate s)),
    <- (shape_and_then_latest_guard (sleep s) e).
  unfold HS.hasWearableData, HS.or.
  destruct (HS.truthy (HS.latest_guard (steps s))) eqn:E1.
  - rewrite E1. by apply shape_and_then_truthy.
  - destruct (HS.truthy (HS.latest_guard (heart_rate s))) eqn:E2; [|done].
    by apply shape_and_then_truthy.
Qed.

Lemma is_element_shape {A : Type} (sl : HS.Slot A) :
  HS.is_element sl = true ↔ HS.shape sl = HS.shown.
Proof. by destruct sl. Qed.

Lemma guard_shape_shown (m : option Metric) :
  HS.guard_shape m = HS.shown ↔ has_latest m = true.
Proof.
  unfold HS.guard_shape. destruct (has_latest m); [done|].
  by destruct (HS.zero_latest m).
Qed.

Lemma is_element_and_then_hasWearableData {A : Type} s (e : A) :
  HS.is_element (HS.and_then (HS.hasWearableData s) e)
  = HS.truthy (HS.hasWearableData s).
Proof.
  destruct (HS.hasWearableData s) as [| |q|[]]; try done.
  simpl. by destruct (Qeq_bool q 0).
Qed.

Lemma and_then_element {A : Type} (g : HS.Guard) (e c : A) :
  HS.and_then g e = HS.element c → c = e ∧ HS.truthy g = true.
Proof.
  destruct g as [| |q|[]]; try done; simpl.
  - destruct (Qeq_bool q 0); [done|]. by intros [= ->].
  - by intros [= ->].
Qed.

Lemma has_latest_truthy (m : option Metric) :
  has_latest m = true → Js.truthy (latest_of m) = true.
Proof.
  destruct m as [[l a]|]; [|done]. unfold has_latest, latest_of.
  cbn [latest]. by intros [? _]%andb_true_iff.
Qed.

Lemma ge_not_lt (v : Js.value) (c : Q) :
  Js.truthy v = true → HS.ge v c = negb (Js.lt v c).
Proof.
  destruct v as [| |q]; try done. intros _. unfold HS.ge, Js.lt, Qltb.
  simpl. by rewrite negb_involutive.
Qed.

Lemma le_not_gt (v : Js.value) (c : Q) :
  Js.truthy v = true → HS.le v c = negb (Js.gt v c).
Proof.
  destruct v as [| |q]; try done. intros _. unfold HS.le, Js.gt, Qltb.
  simpl. by rewrite negb_involutive.
Qed.

Lemma factor_lists_page s rs :
  HS.factor_lists (HS.page s rs)
  = (if HS.truthy (HS.hasWearableData s)
        && bool_decide (0 < length (factors (getHealthScore s rs)))%nat
     then [factors (getHealthScore s rs)] else [])
    ++ (if HS.hasReports rs
           && bool_decide (0 < length (factors (getHealthScore s rs)))%nat
        then [factors (getHealthScore s rs)] else []).
Proof.
  unfold HS.factor_lists. cbn [HS.page HS.p_score HS.p_areas]. f_equal.
  - destruct (HS.hasWearableData s) as [| |q|[]]; try done; simpl.
    + destruct (Qeq_bool q 0); [done|]. simpl. by destruct (bool_decide _).
    + by destruct (bool_decide _).
  - unfold HS.when. by destruct (_ && _).
Qed.

(** Factors need wearable data or reports. *)
Lemma factors_need_data s rs :
  HS.truthy (HS.hasWearableData s) = false → HS.hasReports rs = false →
  factors (getHealthScore s rs) = [].
Proof.
  intros HW HR. rewrite truthy_hasWearableData in HW.
  apply orb_false_iff in HW as [[H1 H2]%orb_false_iff H3].
  destruct rs as [|r rs']; [|done].
  rewrite getHealthScore_unfold. cbn [factors].
  unfold factor_of_metric, triggers. cbn [metric]. by rewrite H1, H2, H3.
Qed.

End summary_page.

Section summary_page_properties.
Implicit Types (s : Summary) (r : Report) (rs : list Report) (k : MetricKind).

(** X1.  The score is 100 exactly when no factor is returned, and that is
    exactly when none of the three wearable checks fires and no report is
    flagged. *)
Theorem perfect_score_iff s rs :
  (score (getHealthScore s rs) = 100 ↔ factors (getHealthScore s rs) = [])
  ∧ (factors (getHealthScore s rs) = []
     ↔ triggers Steps s = false ∧ triggers HeartRate s = false
       ∧ triggers Sleep s = false
       ∧ Forall (λ r, is_flagged r = false) rs).
Proof.
  rewrite getHealthScore_unfold. cbn [score factors].
  rewrite <- report_factors_nil. unfold wearable_points, factor_of_metric.
  split.
  - destruct (triggers Steps s), (triggers HeartRate s), (triggers Sleep s);
      destruct (rs ≫= factor_of_report) as [|f fs]; cbn [app length];
      split; intros H; first [done | discriminate | exfalso; lia].
  - destruct (triggers Steps s), (triggers HeartRate s), (triggers Sleep s);
      cbn [app]; (split; [intros H | intros (H1 & H2 & H3 & H4)]);
      first [done | discriminate].
Qed.

(** X2.  Every returned score is a multiple of 5. *)
Theorem score_multiple_of_five s rs : (5 | score (getHealthScore s rs)).
Proof.
  rewrite getHealthScore_unfold. cbn [score]. unfold wearable_points.
  set (n := Z.of_nat (length (rs ≫= factor_of_report))).
  destruct (Z.max_spec 0
              (100 - ((if triggers Steps s then 10 else 0)
                      + (if triggers HeartRate s then 15 else 0)
                      + (if triggers Sleep s then 15 else 0)) - 20 * n))
    as [[_ ->]|[_ ->]]; [|by exists 0].
  destruct (triggers Steps s), (triggers HeartRate s), (triggers Sleep s);
    [exists (12 - 4 * n) | exists (15 - 4 * n) | exists (15 - 4 * n)
    | exists (18 - 4 * n) | exists (14 - 4 * n) | exists (17 - 4 * n)
    | exists (17 - 4 * n) | exists (20 - 4 * n)]; lia.
Qed.

(** X3.  Whatever the fetches returned, the component holds at most three
    reports, so the floor at 0 never acts on its score: the score is 100
    less the wearable points less 20 per flagged report.  The page is
    loading only before the first fetch is over. *)
Theorem fetched_reports_need_no_floor (replies : list HS.Fetched) :
  (length (HS.recentReports (HS.run replies)) ≤ 3)%nat
  ∧ score (getHealthScore (HS.summary (HS.run replies))
             (HS.recentReports (HS.run replies)))
    = 100 - wearable_points (HS.summary (HS.run replies))
      - 20 * Z.of_nat (length (List.filter is_flagged
                                 (HS.recentReports (HS.run replies))))
  ∧ HS.isLoading (HS.run replies) = bool_decide (replies = []).
Proof.
  assert ((length (HS.recentReports (HS.run replies)) ≤ 3)%nat
          ∧ HS.isLoading (HS.run replies) = bool_decide (replies = []))
    as [Hlen Hload].
  { unfold HS.run. induction replies as [|reply replies IH] using rev_ind.
    - split; [simpl; lia | done].
    - rewrite foldl_app. cbn [foldl]. destruct IH as [IH _].
      split.
      + destruct reply; cbn [HS.fetchSummary HS.recentReports]; [|done].
        rewrite length_take. lia.
      + rewrite bool_decide_eq_false_2 by (by destruct replies).
        by destruct reply. }
  split; [done|]. split; [|done].
  rewrite getHealthScore_unfold. cbn [score].
  rewrite length_report_factors_flagged.
  pose proof (length_filter_le is_flagged (HS.recentReports (HS.run replies))).
  pose proof (wearable_points_bounds (HS.summary (HS.run replies))). lia.
Qed.

(** X4.  A lower score never has a better rating, so appending a report
    never improves the rating. *)
Theorem rating_never_improves s rs r :
  (∀ a b : Z, a ≤ b → (rating_rank (rating a) ≤ rating_rank (rating b))%nat)
  ∧ (rating_rank (rating (score (getHealthScore s (rs ++ [r])))) ≤
     rating_rank (rating (score (getHealthScore s rs))))%nat.
Proof.
  assert (∀ a b : Z, a ≤ b →
            (rating_rank (rating a) ≤ rating_rank (rating b))%nat) as Hmono.
  { intros a b Hab. unfold rating.
    repeat case_bool_decide; try lia; vm_compute; lia. }
  split; [done|]. apply Hmono.
  rewrite !getHealthScore_unfold. cbn [score].
  rewrite bind_app, length_app. lia.
Qed.

(** X5.  When the grid of cards is on the page, the heart-rate card says
    "Check" exactly when the heart-rate factor is returned, and the sleep
    card says "Short" exactly when the sleep factor is returned. *)
Theorem badges_agree_with_factors s rs (grid : HS.StatsGrid) :
  HS.p_stats (HS.page s rs) = HS.element grid →
  (∀ card, HS.g_heart_rate grid = HS.element card →
     (HS.hr_badge card = "Check"
      ↔ metric_factor HeartRate ∈ factors (getHealthScore s rs)))
  ∧ (∀ card, HS.g_sleep grid = HS.element card →
       (HS.sleep_label card = "Short"
        ↔ metric_factor Sleep ∈ factors (getHealthScore s rs))).
Proof.
  intros Hgrid. cbn [HS.page HS.p_stats] in Hgrid.
  apply and_then_element in Hgrid as [-> _].
  split; intros card Hc; cbn [HS.g_heart_rate HS.g_sleep] in Hc;
    apply and_then_element in Hc as [-> Hpresent];
    rewrite truthy_latest_guard in Hpresent;
    pose proof (has_latest_truthy _ Hpresent) as Htruthy;
    rewrite metric_factor_in_factors; unfold triggers;
    cbn [metric out_of_range HS.hr_badge HS.sleep_label]; rewrite Hpresent;
    cbn [andb].
  - unfold HS.heart_rate_badge. rewrite ge_not_lt, le_not_gt by done.
    destruct (Js.lt _ 60), (Js.gt _ 100); by split.
  - unfold HS.sleep_badge. rewrite ge_not_lt by done.
    destruct (Js.lt _ 7); by split.
Qed.

(** X6.  The score block and the grid of cards stand behind the same
    guard [hasWearableData]: both are on the page when some metric has a
    positive reading; otherwise both leave a stray text "0" when the sleep
    reading is the number zero, and nothing in the remaining cases. *)
Theorem wearable_blocks_shape s rs :
  HS.shape (HS.p_score (HS.page s rs)) = HS.shape (HS.p_stats (HS.page s rs))
  ∧ HS.shape (HS.p_score (HS.page s rs))
    = if has_latest (steps s) || has_latest (heart_rate s)
         || has_latest (sleep s)
      then HS.shown
      else if HS.zero_latest (sleep s) then HS.stray "0" else HS.hidden.
Proof.
  cbn [HS.page HS.p_score HS.p_stats].
  rewrite !shape_and_then_hasWearableData. split; [done|].
  unfold HS.guard_shape.
  by destruct (has_latest (steps s)), (has_latest (heart_rate s)),
    (has_latest (sleep s)).
Qed.

(** X7.  Inside the grid each card stands behind the guard of its metric:
    the card is there for a positive reading, a stray text "0" takes its
    place for a reading that is the number zero, nothing otherwise; and a
    grid that is on the page holds at least one card. *)
Theorem stat_cards_shape s rs (grid : HS.StatsGrid) :
  HS.p_stats (HS.page s rs) = HS.element grid →
  HS.shape (HS.g_steps grid) = HS.guard_shape (steps s)
  ∧ HS.shape (HS.g_heart_rate grid) = HS.guard_shape (heart_rate s)
  ∧ HS.shape (HS.g_sleep grid) = HS.guard_shape (sleep s)
  ∧ HS.is_element (HS.g_steps grid) || HS.is_element (HS.g_heart_rate grid)
    || HS.is_element (HS.g_sleep grid) = true.
Proof.
  intros Hgrid. cbn [HS.page HS.p_stats] in Hgrid.
  apply and_then_element in Hgrid as [-> Hdata].
  rewrite truthy_hasWearableData in Hdata.
  cbn [HS.g_steps HS.g_heart_rate HS.g_sleep].
  rewrite !shape_and_then_latest_guard. split_and!; try done.
  rewrite <- Hdata. f_equal; [f_equal|];
    apply eq_true_iff_eq; by rewrite is_element_shape,
      shape_and_then_latest_guard, guard_shape_shown.
Qed.

(** X8.  The empty state is on the page exactly when none of the four
    other blocks is. *)
Theorem empty_state_iff_no_block s rs :
  HS.is_element (HS.p_empty (HS.page s rs)) = true
  ↔ HS.is_element (HS.p_score (HS.page s rs)) = false
    ∧ HS.is_element (HS.p_areas (HS.page s rs)) = false
    ∧ HS.is_element (HS.p_stats (HS.page s rs)) = false
    ∧ HS.is_element (HS.p_reports (HS.page s rs)) = false.
Proof.
  cbn [HS.page HS.p_empty HS.p_score HS.p_areas HS.p_stats HS.p_reports].
  rewrite !is_element_and_then_hasWearableData. unfold HS.when.
  destruct (HS.truthy (HS.hasWearableData s)), (HS.hasReports rs);
    cbn [negb andb HS.is_element]; by split; [|intros (?&?&?&?)].
Qed.

(** X9.  A returned list of factors that is not empty is always on the
    page, once or twice, and twice exactly when there are both wearable
    data and reports; an empty list is never put on the page. *)
Theorem factor_lists_shown s rs :
  (factors (getHealthScore s rs) = [] → HS.factor_lists (HS.page s rs) = [])
  ∧ (factors (getHealthScore s rs) ≠ [] →
       HS.factor_lists (HS.page s rs) = [factors (getHealthScore s rs)]
       ∨ HS.factor_lists (HS.page s rs)
         = [factors (getHealthScore s rs); factors (getHealthScore s rs)])
  ∧ (HS.factor_lists (HS.page s rs)
     = [factors (getHealthScore s rs); factors (getHealthScore s rs)]
     ↔ factors (getHealthScore s rs) ≠ []
       ∧ HS.truthy (HS.hasWearableData s) = true ∧ HS.hasReports rs = true).
Proof.
  rewrite factor_lists_page.
  pose proof (factors_need_data s rs) as Hdata.
  destruct (factors (getHealthScore s rs)) as [|f fs].
  - rewrite !andb_false_r. by split_and!; [| |split; [|intros (?&_)]].
  - cbn [length bool_decide]. rewrite !andb_true_r.
    destruct (HS.truthy (HS.hasWearableData s)), (HS.hasReports rs);
      cbn [app]; split_and!; try done; auto;
      try (by split; [|intros (?&?&?)]).
    by specialize (Hdata eq_refl eq_refl).
Qed.

End summary_page_properties.

(** ** The manual-entry form *)

Section manual_entry.
Import ManualEntry.
Implicit Types (l : list ascii) (st : State).

Lemma drop_ws_head l c : head (drop_ws l) = Some c → is_ws c = false.
Proof.
  induction l as [|a l IH]; simpl; [done|].
  destruct (is_ws a) eqn:E; [done|]. simpl. by intros [= <-].
Qed.

Lemma drop_ws_id l : (∀ c, head l = Some c → is_ws c = false) → drop_ws l = l.
Proof. destruct l as [|a l]; simpl; [done|]. intros H. by rewrite (H a). Qed.

Lemma drop_ws_nil l : drop_ws l = [] ↔ Forall (λ c, is_ws c = true) l.
Proof.
  induction l as [|a l IH]; simpl; [by split; [constructor|]|].
  rewrite Forall_cons. destruct (is_ws a) eqn:E.
  - rewrite IH. tauto.
  - split; [done|]. by intros [? _].
Qed.

Lemma last_drop_ws l : drop_ws l ≠ [] → last (drop_ws l) = last l.
Proof.
  induction l as [|a l IH]; [done|]. simpl.
  destruct (is_ws a); [|done]. intros H. rewrite IH by done.
  by destruct l.
Qed.

Lemma trimmed_trim_list l : trimmed_list (trim_list l).
Proof.
  unfold trim_list. split; intros c.
  - rewrite head_reverse. intros H.
    assert (drop_ws (reverse (drop_ws l)) ≠ []) as Hne.
    { intros E. by rewrite E in H. }
    rewrite last_drop_ws, last_reverse in H by done.
    by apply drop_ws_head in H.
  - rewrite last_reverse. apply drop_ws_head.
Qed.

Lemma trim_list_id l : trimmed_list l → trim_list l = l.
Proof.
  intros [H1 H2]. unfold trim_list. rewrite (drop_ws_id l H1).
  rewrite drop_ws_id; [apply reverse_involutive|].
  intros c. rewrite head_reverse. apply H2.
Qed.

Lemma trim_list_nil l : trim_list l = [] ↔ Forall (λ c, is_ws c = true) l.
Proof.
  unfold trim_list. split.
  - intros H. apply (f_equal reverse) in H.
    rewrite reverse_involutive, reverse_nil in H.
    apply drop_ws_nil in H. rewrite Forall_reverse in H.
    destruct (drop_ws l) as [|a d] eqn:E; [by apply drop_ws_nil|].
    apply Forall_cons in H as [Ha _].
    assert (is_ws a = false) by (apply (drop_ws_head l); by rewrite E).
    congruence.
  - intros H%drop_ws_nil. by rewrite H.
Qed.

Lemma trim_blank (s : string) : is_empty (trim s) = true ↔ blank s.
Proof.
  unfold is_empty, trim, blank. rewrite String.eqb_eq, <- trim_list_nil.
  split; intros H.
  - apply (f_equal String.list_ascii_of_string) in H.
    by rewrite String.list_ascii_of_string_of_list_ascii in H.
  - by rewrite H.
Qed.

Lemma trimmed_trim (s : string) : trimmed (trim s).
Proof.
  unfold trimmed, trim. rewrite String.list_ascii_of_string_of_list_ascii.
  apply trimmed_trim_list.
Qed.

Lemma trim_id (s : string) : trimmed s → trim s = s.
Proof.
  intros H. unfold trim. rewrite trim_list_id by done.
  apply String.string_of_list_ascii_of_string.
Qed.

Lemma no_markers_has_markers (r : option ExtractionResult) :
  no_markers r = negb (has_markers r).
Proof.
  destruct r as [res|]; [|done]. simpl. by destruct (markers res).
Qed.

Lemma or_default_not_empty (detail : option string) (fallback : string) :
  is_empty fallback = false → is_empty (or_default detail fallback) = false.
Proof.
  intros H. unfold or_default. destruct detail as [d|]; [|done].
  by destruct (is_empty d) eqn:E.
Qed.

(** X10.  A click on Test sends a request exactly when the text is not
    blank.  A blank text only sets the error message.  The text that is
    sent is the trimmed one: it is not empty, has no white space at either
    end, and trimming it again changes nothing.  An enabled Test button
    always sends. *)
Theorem test_request_iff_not_blank st :
  ((handleTestText_start st).2 = None ↔ blank (text st))
  ∧ (blank (text st) →
       handleTestText_start st
       = ({| text := text st; isLoading := isLoading st;
             results := results st;
             error := "Please enter some text to test" |}, None))
  ∧ (∀ req, (handleTestText_start st).2 = Some req →
       req = post_debug_text (trim (text st))
       ∧ trim (text st) ≠ ""
       ∧ trimmed (trim (text st))
       ∧ trim (trim (text st)) = trim (text st))
  ∧ (test_disabled st = false → (handleTestText_start st).2 ≠ None).
Proof.
  unfold handleTestText_start, test_disabled.
  pose proof (trim_blank (text st)) as Hblank.
  destruct (is_empty (trim (text st))) eqn:E; cbn [snd].
  - split_and!; [by split; [intros _; apply Hblank|] | done | done |].
    by rewrite orb_true_r.
  - assert (¬ blank (text st)) as Hnb by (intros H%Hblank; done).
    split_and!; [by split | done | | done].
    intros req [= <-]. split_and!; [done | | apply trimmed_trim |].
    + intros H. unfold is_empty in E. rewrite H in E. done.
    + apply trim_id, trimmed_trim.
Qed.


(** X12.  The Save button is on the page exactly when a click on it
    uploads; the upload carries the current text under the file name
    "Manual Entry".  Editing the text keeps the results and the button, so
    after an edit the upload carries the edited text, not the tested one. *)
Theorem save_uploads_current_text st (value : string) :
  (save_visible st = true
   ↔ (handleSaveToReports_start st).2
     = Some (post_upload "Manual Entry" (text st)))
  ∧ (save_visible st = false
     ↔ handleSaveToReports_start st
       = ({| text := text st; isLoading := isLoading st;
             results := results st;
             error := "No markers detected to save" |}, None))
  ∧ save_visible (onChange value st) = save_visible st
  ∧ (save_visible st = true →
       (handleSaveToReports_start (onChange value st)).2
       = Some (post_upload "Manual Entry" value)).
Proof.
  unfold save_visible, handleSaveToReports_start, onChange.
  cbn [results text isLoading error]. rewrite no_markers_has_markers.
  destruct (has_markers (results st)); cbn [negb snd];
    split_and!; try done; by split.
Qed.

(** X13.  A click on Save that uploads ends with the loading flag off.
    When the upload succeeds the form is reset: no text, no results, no
    Save button, a disabled Test button, and neither handler would send
    anything.  When it fails the text and the results stay, the Save
    button remains for another try, and an error banner is shown. *)
Theorem save_outcome (backend : string → string → Reply ()) st :
  save_visible st = true →
  isLoading (handleSaveToReports backend st) = false
  ∧ match backend "Manual Entry" (text st) with
    | ok _ =>
        text (handleSaveToReports backend st) = ""
        ∧ results (handleSaveToReports backend st) = None
        ∧ error (handleSaveToReports backend st) = ""
        ∧ save_visible (handleSaveToReports backend st) = false
        ∧ test_disabled (handleSaveToReports backend st) = true
        ∧ (handleTestText_start (handleSaveToReports backend st)).2 = None
        ∧ (handleSaveToReports_start (handleSaveToReports backend st)).2 = None
    | failed _ =>
        text (handleSaveToReports backend st) = text st
        ∧ results (handleSaveToReports backend st) = results st
        ∧ save_visible (handleSaveToReports backend st) = true
        ∧ error_shown (handleSaveToReports backend st) = true
    end.
Proof.
  unfold save_visible. intros Hm.
  unfold handleSaveToReports, handleSaveToReports_start.
  rewrite no_markers_has_markers, Hm. cbn [negb].
  destruct (backend "Manual Entry" (text st)) as [[]|detail];
    cbn [handleSaveToReports_finish isLoading text results error];
    split_and!; try done.
  unfold error_shown. cbn [error].
  by rewrite or_default_not_empty.
Qed.

End manual_entry.

Section summary_page_more.
Implicit Types (s : Summary) (r : Report) (rs : list Report).

(** X17.  The block of recent reports counts all reports and, as those
    "with abnormal markers", exactly the reports that gave a factor: the
    returned factors are the wearable factors plus one per counted
    report. *)
Theorem reports_block_counts s rs (rb : HS.ReportsBlock) :
  HS.p_reports (HS.page s rs) = HS.element rb →
  HS.rb_total rb = length rs
  ∧ (0 < HS.rb_total rb)%nat
  ∧ (HS.rb_abnormal rb ≤ HS.rb_total rb)%nat
  ∧ HS.rb_abnormal rb = length (rs ≫= factor_of_report)
  ∧ length (factors (getHealthScore s rs))
    = (length (factor_of_metric Steps s ++ factor_of_metric HeartRate s
               ++ factor_of_metric Sleep s)
       + HS.rb_abnormal rb)%nat.
Proof.
  cbn [HS.page HS.p_reports]. unfold HS.when, HS.hasReports.
  case_bool_decide as Hlen; [|done]. intros [= <-].
  cbn [HS.rb_total HS.rb_abnormal].
  split_and!; [done | done | apply length_filter_le
              | by rewrite length_report_factors_flagged |].
  rewrite getHealthScore_unfold. cbn [factors].
  rewrite !length_app, length_report_factors_flagged. lia.
Qed.

(** X18.  Without wearable data the score block is not on the page, every
    returned factor comes from a report, and the score is 100 less 20 per
    flagged report, floored at 0. *)
Theorem no_wearable_data_only_lab_factors s rs :
  HS.truthy (HS.hasWearableData s) = false →
  HS.is_element (HS.p_score (HS.page s rs)) = false
  ∧ factors (getHealthScore s rs) = rs ≫= factor_of_report
  ∧ score (getHealthScore s rs)
    = Z.max 0 (100 - 20 * Z.of_nat (length (List.filter is_flagged rs))).
Proof.
  intros HW. split.
  { cbn [HS.page HS.p_score]. by rewrite is_element_and_then_hasWearableData. }
  rewrite truthy_hasWearableData in HW.
  apply orb_false_iff in HW as [[H1 H2]%orb_false_iff H3].
  rewrite getHealthScore_unfold. cbn [score factors].
  unfold wearable_points, factor_of_metric, triggers. cbn [metric].
  rewrite H1, H2, H3, length_report_factors_flagged. cbn [andb app].
  by split.
Qed.

End summary_page_more.

Section manual_entry_run.
Import ManualEntry.

(** X19.  Whatever the user does and whatever the backend replies, once
    the handlers are through the form is not loading: the flag never
    sticks. *)
Theorem loading_never_sticks (events : list Event) :
  isLoading (run events) = false.
Proof.
  unfold run. induction events as [|ev events IH] using rev_ind; [done|].
  rewrite foldl_app. cbn [foldl]. destruct ev as [value|reply|reply]; simpl.
  - done.
  - unfold handleTestText, handleTestText_start.
    destruct (is_empty _); [done|]. by destruct reply.
  - unfold handleSaveToReports, handleSaveToReports_start.
    destruct (no_markers _); [done|]. by destruct reply.
Qed.

End manual_entry_run.

(** ** The chat sessions of the dashboard *)

Section dashboard.
Import Dashboard.
Implicit Types (st : State) (c : ChatSession).

Lemma length_substring_0 (n : nat) (s : string) :
  String.length (String.substring 0 n s) = (n `min` String.length s)%nat.
Proof.
  revert s. induction n as [|n IH]; intros [|a s]; simpl; try done.
  by rewrite IH.
Qed.

Lemma length_string_app (a b : string) :
  String.length (a +:+ b) = (String.length a + String.length b)%nat.
Proof. induction a as [|x a IH]; simpl; [done|]. by rewrite IH. Qed.

Lemma substring_0_app (a b : string) :
  String.substring 0 (String.length a) (a +:+ b) = a.
Proof. induction a as [|x a IH]; simpl; [by destruct b|]. by rewrite IH. Qed.

Lemma substring_0_prefix (n : nat) (s : string) :
  ∃ rest, s = String.substring 0 n s +:+ rest.
Proof.
  revert s. induction n as [|n IH]; intros [|a s]; simpl.
  - by exists "".
  - by exists (String a s).
  - by exists "".
  - destruct (IH s) as [rest Hrest]. exists rest.
    change (String a s = String a (String.substring 0 n s +:+ rest)).
    by rewrite <- Hrest.
Qed.

(** X14.  A formatted title has at most 33 characters.  A title of at most
    30 characters is kept; a longer one becomes its first 30 characters
    followed by three dots.  Formatting twice is formatting once. *)
Theorem formatSessionTitle_bounded (title : string) :
  (String.length (formatSessionTitle title) ≤ 33)%nat
  ∧ ((String.length title ≤ 30)%nat → formatSessionTitle title = title)
  ∧ ((30 < String.length title)%nat →
       String.length (formatSessionTitle title) = 33%nat
       ∧ ∃ head30 rest,
           String.length head30 = 30%nat
           ∧ title = head30 +:+ rest
           ∧ formatSessionTitle title = head30 +:+ "...")
  ∧ formatSessionTitle (formatSessionTitle title) = formatSessionTitle title.
Proof.
  destruct (30 <? String.length title)%nat eqn:E.
  - assert (formatSessionTitle title = String.substring 0 30 title +:+ "...")
      as Hfmt by (unfold formatSessionTitle; by rewrite E).
    apply Nat.ltb_lt in E.
    assert (String.length (String.substring 0 30 title) = 30%nat) as Hlen.
    { rewrite length_substring_0. lia. }
    assert (String.length (formatSessionTitle title) = 33%nat) as Hlen33.
    { by rewrite Hfmt, length_string_app, Hlen. }
    split_and!.
    + lia.
    + lia.
    + intros _. split; [done|].
      destruct (substring_0_prefix 30 title) as [rest Hrest].
      by exists (String.substring 0 30 title), rest.
    + unfold formatSessionTitle at 1. rewrite Hlen33. cbn [Nat.ltb Nat.leb].
      rewrite Hfmt.
      pose proof (substring_0_app (String.substring 0 30 title) "...") as Hsub.
      rewrite Hlen in Hsub. by rewrite Hsub.
  - assert (formatSessionTitle title = title) as Hfmt
      by (unfold formatSessionTitle; by rewrite E).
    apply Nat.ltb_ge in E. rewrite !Hfmt. split_and!; [lia | done | lia | done].
Qed.

(** X15.  When the server accepts a confirmed delete, exactly the sessions
    with that id leave the list as it is when the reply arrives, and the
    others keep their order.  If nothing touched the state during the
    request, the current session afterwards, if any, is the one from
    before and does not have that id.  The test reads the current session
    of the click, though: a session with that id that became current
    during the request stays current, and is no longer in the list.
    Without the confirmation, or when the request fails, nothing
    changes. *)
Theorem deleteSession_removes_exactly (sessionId : string)
    (captured : option ChatSession) st :
  (∀ c, c ∈ sessions (deleteSession_finish sessionId captured st)
        ↔ c ∈ sessions st ∧ id c ≠ sessionId)
  ∧ sessions (deleteSession_finish sessionId captured st)
    `sublist_of` sessions st
  ∧ (∀ c, currentSession (deleteSession true true sessionId st) = Some c →
          currentSession st = Some c ∧ id c ≠ sessionId)
  ∧ (∀ c, captured_is sessionId captured = false →
          currentSession st = Some c → id c = sessionId →
          currentSession (deleteSession_finish sessionId captured st) = Some c
          ∧ c ∉ sessions (deleteSession_finish sessionId captured st))
  ∧ (∀ confirmed deleted, confirmed && deleted = false →
       deleteSession confirmed deleted sessionId st = st).
Proof.
  unfold deleteSession, deleteSession_finish.
  cbn [negb sessions currentSession].
  split_and!.
  - intros c. rewrite list_elem_of_filter. tauto.
  - apply sublist_filter.
  - intros c. unfold captured_is.
    destruct (currentSession st) as [c'|]; [|done].
    case_bool_decide; [done|]. by intros [= ->].
  - intros c Hcap Hcur Hid. rewrite Hcap. split; [done|].
    rewrite list_elem_of_filter. by intros [? _].
  - by intros [] [].
Qed.

(** X16.  Creating a session whose id is new and deleting it again gives
    back the list of sessions, with no current session. *)
Theorem create_then_delete (newSession : ChatSession) st :
  Forall (λ c, id c ≠ id newSession) (sessions st) →
  deleteSession true true (id newSession)
    (createNewSession (Some newSession) st)
  = {| sessions := sessions st; currentSession := None |}.
Proof.
  intros Hfresh.
  unfold deleteSession, deleteSession_finish, createNewSession, captured_is.
  cbn [negb sessions currentSession].
  rewrite bool_decide_eq_true_2 by done. f_equal.
  rewrite filter_app, filter_cons_False, filter_nil, app_nil_r by (by intros ?).
  induction Hfresh as [|c l Hc Hl IH]; [done|].
  by rewrite filter_cons_True, IH.
Qed.

End dashboard.

(** ** Instances of the further properties *)

Lemma badges_agree_with_factors_witness :
  HS.p_stats (HS.page poor_summary []) = HS.element poor_grid
  ∧ (∀ card, HS.g_heart_rate poor_grid = HS.element card →
       (HS.hr_badge card = "Check"
        ↔ metric_factor HeartRate ∈ factors (getHealthScore poor_summary [])))
  ∧ (∀ card, HS.g_sleep poor_grid = HS.element card →
       (HS.sleep_label card = "Short"
        ↔ metric_factor Sleep ∈ factors (getHealthScore poor_summary []))).
Proof.
  assert (HS.p_stats (HS.page poor_summary []) = HS.element poor_grid) as H.
  { reflexivity. }
  split; [exact H|]. exact (badges_agree_with_factors poor_summary [] poor_grid H).
Defined.

Lemma stat_cards_shape_witness :
  HS.p_stats (HS.page poor_summary []) = HS.element poor_grid
  ∧ HS.shape (HS.g_steps poor_grid) = HS.guard_shape (steps poor_summary)
  ∧ HS.shape (HS.g_heart_rate poor_grid)
    = HS.guard_shape (heart_rate poor_summary)
  ∧ HS.shape (HS.g_sleep poor_grid) = HS.guard_shape (sleep poor_summary)
  ∧ HS.is_element (HS.g_steps poor_grid)
    || HS.is_element (HS.g_heart_rate poor_grid)
    || HS.is_element (HS.g_sleep poor_grid) = true.
Proof.
  assert (HS.p_stats (HS.page poor_summary []) = HS.element poor_grid) as H.
  { reflexivity. }
  split; [exact H|]. exact (stat_cards_shape poor_summary [] poor_grid H).
Defined.


Lemma save_outcome_witness :
  ManualEntry.save_visible tested_state = true
  ∧ ManualEntry.isLoading
      (ManualEntry.handleSaveToReports accepting_upload tested_state) = false
  ∧ match accepting_upload "Manual Entry" (ManualEntry.text tested_state) with
    | ManualEntry.ok _ =>
        ManualEntry.text
          (ManualEntry.handleSaveToReports accepting_upload tested_state) = ""
        ∧ ManualEntry.results
            (ManualEntry.handleSaveToReports accepting_upload tested_state)
          = None
        ∧ ManualEntry.error
            (ManualEntry.handleSaveToReports accepting_upload tested_state)
          = ""
        ∧ ManualEntry.save_visible
            (ManualEntry.handleSaveToReports accepting_upload tested_state)
          = false
        ∧ ManualEntry.test_disabled
            (ManualEntry.handleSaveToReports accepting_upload tested_state)
          = true
        ∧ (ManualEntry.handleTestText_start
             (ManualEntry.handleSaveToReports accepting_upload tested_state)).2
          = None
        ∧ (ManualEntry.handleSaveToReports_start
             (ManualEntry.handleSaveToReports accepting_upload tested_state)).2
          = None
    | ManualEntry.failed _ =>
        ManualEntry.text
          (ManualEntry.handleSaveToReports accepting_upload tested_state)
        = ManualEntry.text tested_state
        ∧ ManualEntry.results
            (ManualEntry.handleSaveToReports accepting_upload tested_state)
          = ManualEntry.results tested_state
        ∧ ManualEntry.save_visible
            (ManualEntry.handleSaveToReports accepting_upload tested_state)
          = true
        ∧ ManualEntry.error_shown
            (ManualEntry.handleSaveToReports accepting_upload tested_state)
          = true
    end.
Proof.
  split; [reflexivity|].
  apply (save_outcome accepting_upload tested_state). reflexivity.
Defined.

Lemma create_then_delete_witness :
  Forall (λ c, Dashboard.id c ≠ Dashboard.id session_c)
    (Dashboard.sessions two_sessions)
  ∧ Dashboard.deleteSession true true (Dashboard.id session_c)
      (Dashboard.createNewSession (Some session_c) two_sessions)
    = {| Dashboard.sessions := Dashboard.sessions two_sessions;
         Dashboard.currentSession := None |}.
Proof.
  assert (Forall (λ c, Dashboard.id c ≠ Dashboard.id session_c)
            (Dashboard.sessions two_sessions)) as H.
  { repeat constructor; discriminate. }
  split; [exact H|]. exact (create_then_delete session_c two_sessions H).
Defined.

Lemma reports_block_counts_witness :
  HS.p_reports (HS.page poor_summary [report_of_marker high_marker; mkReport None])
  = HS.element {| HS.rb_total := 2; HS.rb_abnormal := 1 |}
  ∧ 2%nat = length [report_of_marker high_marker; mkReport None]
  ∧ (0 < 2)%nat
  ∧ (1 ≤ 2)%nat
  ∧ 1%nat = length ([report_of_marker high_marker; mkReport None]
                    ≫= factor_of_report)
  ∧ length (factors (getHealthScore poor_summary
                       [report_of_marker high_marker; mkReport None]))
    = (length (factor_of_metric Steps poor_summary
               ++ factor_of_metric HeartRate poor_summary
               ++ factor_of_metric Sleep poor_summary)
       + 1)%nat.
Proof.
  assert (HS.p_reports
            (HS.page poor_summary [report_of_marker high_marker; mkReport None])
          = HS.element {| HS.rb_total := 2; HS.rb_abnormal := 1 |}) as H.
  { by vm_compute. }
  split; [exact H|].
  exact (reports_block_counts poor_summary
           [report_of_marker high_marker; mkReport None]
           {| HS.rb_total := 2; HS.rb_abnormal := 1 |} H).
Defined.

Lemma no_wearable_data_only_lab_factors_witness :
  HS.truthy (HS.hasWearableData all_zero_summary) = false
  ∧ HS.is_element
      (HS.p_score (HS.page all_zero_summary [report_of_marker high_marker]))
    = false
  ∧ factors (getHealthScore all_zero_summary [report_of_marker high_marker])
    = [report_of_marker high_marker] ≫= factor_of_report
  ∧ score (getHealthScore all_zero_summary [report_of_marker high_marker])
    = Z.max 0 (100 - 20 * Z.of_nat
                 (length (List.filter is_flagged [report_of_marker high_marker]))).
Proof.
  split; [reflexivity|].
  apply (no_wearable_data_only_lab_factors all_zero_summary
           [report_of_marker high_marker]). reflexivity.
Defined.

Lemma factor_lists_shown_witness :
  factors (getHealthScore mixed_summary [report_of_marker high_marker]) ≠ []
  ∧ HS.truthy (HS.hasWearableData mixed_summary) = true
  ∧ HS.hasReports [report_of_marker high_marker] = true
  ∧ HS.factor_lists (HS.page mixed_summary [report_of_marker high_marker])
    = [factors (getHealthScore mixed_summary [report_of_marker high_marker]);
       factors (getHealthScore mixed_summary [report_of_marker high_marker])].
Proof.
  assert (factors (getHealthScore mixed_summary [report_of_marker high_marker])
          ≠ []) as H by (by vm_compute).
  split; [exact H|]. split; [reflexivity|]. split; [reflexivity|].
  apply (factor_lists_shown mixed_summary [report_of_marker high_marker]).
  split; [exact H|]. split; reflexivity.
Defined.

Lemma test_request_iff_not_blank_witness :
  ManualEntry.blank (ManualEntry.text ManualEntry.initial)
  ∧ ManualEntry.handleTestText_start ManualEntry.initial
    = ({| ManualEntry.text := ""; ManualEntry.isLoading := false;
          ManualEntry.results := None;
          ManualEntry.error := "Please enter some text to test" |}, None)
  ∧ (ManualEntry.handleTestText_start typed_state).2
    = Some (ManualEntry.post_debug_text "GLUCOSE: 95 mg/dL")
  ∧ ManualEntry.trimmed (ManualEntry.trim (ManualEntry.text typed_state)).
Proof.
  assert (ManualEntry.blank (ManualEntry.text ManualEntry.initial)) as H
    by constructor.
  split; [exact H|].
  split; [exact (proj1 (proj2 (test_request_iff_not_blank ManualEntry.initial)) H)|].
  assert ((ManualEntry.handleTestText_start typed_state).2
          = Some (ManualEntry.post_debug_text "GLUCOSE: 95 mg/dL")) as Hreq
    by reflexivity.
  split; [exact Hreq|].
  exact (proj1 (proj2 (proj2 (proj1 (proj2 (proj2
           (test_request_iff_not_blank typed_state))) _ Hreq)))).
Defined.

Lemma save_uploads_current_text_witness :
  ManualEntry.save_visible tested_state = true
  ∧ (ManualEntry.handleSaveToReports_start
       (ManualEntry.onChange "something else" tested_state)).2
    = Some (ManualEntry.post_upload "Manual Entry" "something else").
Proof.
  split; [reflexivity|].
  apply (save_uploads_current_text tested_state "something else").
  reflexivity.
Defined.

Lemma formatSessionTitle_bounded_witness :
  (30 < String.length long_title)%nat
  ∧ String.length (Dashboard.formatSessionTitle long_title) = 33%nat
  ∧ ∃ head30 rest,
      String.length head30 = 30%nat
      ∧ long_title = head30 +:+ rest
      ∧ Dashboard.formatSessionTitle long_title = head30 +:+ "...".
Proof.
  assert (30 < String.length long_title)%nat as H by (vm_compute; lia).
  split; [exact H|].
  exact (proj1 (proj2 (proj2 (formatSessionTitle_bounded long_title))) H).
Defined.

Lemma deleteSession_removes_exactly_witness :
  Dashboard.captured_is "b" (Dashboard.currentSession two_sessions) = false
  ∧ Dashboard.currentSession
      (Dashboard.loadSessionMessages (Some session_b) two_sessions)
    = Some session_b
  ∧ Dashboard.currentSession
      (Dashboard.deleteSession_finish "b"
         (Dashboard.currentSession two_sessions)
         (Dashboard.loadSessionMessages (Some session_b) two_sessions))
    = Some session_b
  ∧ (session_b
     ∉ Dashboard.sessions
         (Dashboard.deleteSession_finish "b"
            (Dashboard.currentSession two_sessions)
            (Dashboard.loadSessionMessages (Some session_b) two_sessions)))
  ∧ Dashboard.currentSession
      (Dashboard.deleteSession true true "b" two_sessions) = Some session_a
  ∧ Dashboard.id session_a ≠ "b"
  ∧ Dashboard.deleteSession true false "a" two_sessions = two_sessions.
Proof.
  destruct (deleteSession_removes_exactly "b"
              (Dashboard.currentSession two_sessions)
              (Dashboard.loadSessionMessages (Some session_b) two_sessions))
    as (_ & _ & _ & Hrace & _).
  destruct (deleteSession_removes_exactly "b" None two_sessions)
    as (_ & _ & Hcur & _).
  destruct (deleteSession_removes_exactly "a" None two_sessions)
    as (_ & _ & _ & _ & Hkeep).
  assert (Dashboard.currentSession
            (Dashboard.deleteSession true true "b" two_sessions)
          = Some session_a) as H by reflexivity.
  split; [reflexivity|]. split; [reflexivity|].
  split; [exact (proj1 (Hrace session_b eq_refl eq_refl eq_refl))|].
  split; [exact (proj2 (Hrace session_b eq_refl eq_refl eq_refl))|].
  split; [exact H|]. split; [exact (proj2 (Hcur _ H))|].
  apply Hkeep. reflexivity.
Defined.

(** ** Examples of the page *)

(** A summary of zero readings and no report: the empty state, and a stray
    "0" where the score block and the grid of cards would be. *)
Example page_all_zero :
  HS.page all_zero_summary []
  = {| HS.p_score := HS.text "0"; HS.p_areas := HS.nothing;
       HS.p_stats := HS.text "0"; HS.p_reports := HS.nothing;
       HS.p_empty := HS.element () |}.
Proof. by vm_compute. Qed.

(** A zero sleep reading beside real readings: a stray "0" inside the
    grid, and the list of factors twice on the page. *)
Example page_mixed :
  HS.shape
    <$> (match HS.p_stats (HS.page mixed_summary [report_of_marker high_marker]) with
         | HS.element grid => Some (HS.g_sleep grid)
         | _ => None
         end) = Some (HS.stray "0")
  ∧ length (HS.factor_lists
              (HS.page mixed_summary [report_of_marker high_marker])) = 2%nat.
Proof. by vm_compute. Qed.
